(** * An interactive calculator: command registry and calculation history

    A shallow embedding of the Python sources
      app/calculator/operations.py     (ArithmeticOperations)
      app/calculator/calculation.py    (Calculation)
      app/calculator/calculations.py   (CalculationHistory)
      app/calculator/__init__.py       (Calculator)
      app/commands/__init__.py         (Command, CommandHandler)
    followed by the properties of the specification that concern them.

    Python state is passed explicitly: a method that mutates the class-level
    history, the file system, the log or standard output is a function from
    the state before the call to an outcome and the state after it.  A raised
    exception is an outcome; the mutations made before the raise stay. *)

From Stdlib Require Import ZArith NArith List String Ascii Bool Lia.
From Stdlib Require Import DecimalString DecimalN.
From Stdlib Require Import Floats.SpecFloat.
Import ListNotations.
Local Open Scope string_scope.
Local Open Scope Z_scope.

Set Implicit Arguments.

(* ===================================================================== *)
(** * Exceptions *)
(* ===================================================================== *)

(** The exception classes the sources raise, catch or can meet, with their
    position in Python's hierarchy.  [UserDefined] stands for a class a
    plugin declares itself, with its base class. *)
Inductive exn_class : Type :=
| BaseException
| SystemExit
| KeyboardInterrupt
| Exception
| ArithmeticError
| ZeroDivisionError
| DivisionByZero          (* decimal.DivisionByZero(DecimalException, ZeroDivisionError) *)
| DecimalException
| InvalidOperation
| Overflow
| LookupError
| IndexError
| KeyError
| OSError
| FileNotFoundError
| ValueError
| EmptyDataError          (* pandas.errors.EmptyDataError(ValueError) *)
| ParserError             (* pandas.errors.ParserError(ValueError) *)
| TypeError
| RuntimeError
| NotImplementedError
| UserDefined (name : string) (base : exn_class).

Fixpoint exn_class_eqb (c d : exn_class) : bool :=
  match c, d with
  | BaseException, BaseException
  | SystemExit, SystemExit
  | KeyboardInterrupt, KeyboardInterrupt
  | Exception, Exception
  | ArithmeticError, ArithmeticError
  | ZeroDivisionError, ZeroDivisionError
  | DivisionByZero, DivisionByZero
  | DecimalException, DecimalException
  | InvalidOperation, InvalidOperation
  | Overflow, Overflow
  | LookupError, LookupError
  | IndexError, IndexError
  | KeyError, KeyError
  | OSError, OSError
  | FileNotFoundError, FileNotFoundError
  | ValueError, ValueError
  | EmptyDataError, EmptyDataError
  | ParserError, ParserError
  | TypeError, TypeError
  | RuntimeError, RuntimeError
  | NotImplementedError, NotImplementedError => true
  | UserDefined n b, UserDefined n' b' => String.eqb n n' && exn_class_eqb b b'
  | _, _ => false
  end.

(** The proper ancestors of a class, nearest first. *)
Fixpoint ancestors (c : exn_class) : list exn_class :=
  match c with
  | BaseException => []
  | SystemExit | KeyboardInterrupt | Exception => [BaseException]
  | ArithmeticError | LookupError | OSError | ValueError | TypeError
  | RuntimeError => [Exception; BaseException]
  | ZeroDivisionError | DecimalException =>
      [ArithmeticError; Exception; BaseException]
  | DivisionByZero =>
      [DecimalException; ZeroDivisionError; ArithmeticError; Exception;
       BaseException]
  | InvalidOperation | Overflow =>
      [DecimalException; ArithmeticError; Exception; BaseException]
  | IndexError | KeyError => [LookupError; Exception; BaseException]
  | FileNotFoundError => [OSError; Exception; BaseException]
  | EmptyDataError | ParserError => [ValueError; Exception; BaseException]
  | NotImplementedError => [RuntimeError; Exception; BaseException]
  | UserDefined _ b => b :: ancestors b
  end.

(** [issubclass c d]. *)
Definition issubclass (c d : exn_class) : bool :=
  existsb (exn_class_eqb d) (c :: ancestors c).

(** A raised exception: its class and [str(e)]. *)
Record exn : Type := mk_exn { exn_cls : exn_class; exn_str : string }.

(** [isinstance(e, d)], the test an [except d] clause makes. *)
Definition isinstance (e : exn) (d : exn_class) : bool :=
  issubclass (exn_cls e) d.

(** The outcome of a call: a returned value or a raised exception. *)
Inductive result (A : Type) : Type :=
| Ok (a : A)
| Raise (e : exn).
Arguments Ok {A} a.
Arguments Raise {A} e.

Definition bind_result {A B} (r : result A) (k : A -> result B) : result B :=
  match r with
  | Ok a => k a
  | Raise e => Raise e
  end.


(* ===================================================================== *)
(** * Python's [decimal.Decimal] under the default context *)
(* ===================================================================== *)

(** The operands of the calculator are [decimal.Decimal] values and the
    arithmetic of operations.py is Decimal arithmetic under the default
    context: 28 significant digits, ROUND_HALF_EVEN, exponents between
    -999999 and 999999, traps on InvalidOperation, DivisionByZero and
    Overflow.  A trapped signal is a raised exception. *)
Module PyDecimal.

(** A Decimal is a sign, a coefficient and an exponent, or one of the
    special values.  [Finite s c e] is (-1)^s * c * 10^e. *)
Inductive Decimal : Type :=
| Finite (sign : bool) (coeff : N) (exp : Z)
| Infinity (sign : bool)
| NaN (sign : bool) (signaling : bool) (payload : N).

Definition prec : Z := 28.
Definition Emax : Z := 999999.
Definition Emin : Z := -999999.
Definition Etiny : Z := Emin - prec + 1.
Definition Etop : Z := Emax - prec + 1.

Definition raise {A} (c : exn_class) (msg : string) : result A :=
  Raise (mk_exn c msg).

(** [len(str(n))]: the number of decimal digits of a coefficient. *)
Definition ndigits (n : N) : Z :=
  Z.of_nat (Decimal.nb_digits (N.to_uint n)).

Definition pow10 (k : Z) : N := N.pow 10 (Z.to_N k).

(** Drop the last [k] digits of [c], rounding half to even. *)
Definition round_half_even (c : N) (k : Z) : N :=
  let q := (c / pow10 k)%N in
  let r := (c mod pow10 k)%N in
  match (2 * r ?= pow10 k)%N with
  | Gt => (q + 1)%N
  | Eq => if N.odd q then (q + 1)%N else q
  | Lt => q
  end.

(** [Decimal._fix] on a finite value: round to the context's precision and
    keep the exponent within bounds. *)
Definition fix_finite (s : bool) (c : N) (e : Z) : result Decimal :=
  if (c =? 0)%N then Ok (Finite s 0 (Z.min (Z.max e Etiny) Emax))
  else
    let exp_min0 := ndigits c + e - prec in
    if exp_min0 >? Etop then raise Overflow "above Emax"
    else
      let exp_min := Z.max exp_min0 Etiny in
      if e <? exp_min then
        let digits := ndigits c + e - exp_min in
        let c' := if digits <? 0 then 0%N
                  else round_half_even c (exp_min - e) in
        let '(c'', e'') :=
          if ndigits c' >? prec then ((c' / 10)%N, exp_min + 1)
          else (c', exp_min) in
        if e'' >? Etop then raise Overflow "above Emax"
        else Ok (Finite s c'' e'')
      else Ok (Finite s c e).

(** [Decimal._fix_nan]: a payload keeps its last [prec] digits. *)
Definition fix_nan (s : bool) (payload : N) : Decimal :=
  NaN s false (payload mod pow10 prec)%N.

(** [Decimal._check_nans]: a signaling NaN raises, a quiet NaN is the
    result; [None] when neither operand is a NaN. *)
Definition check_nans (a b : Decimal) : option (result Decimal) :=
  match a, b with
  | NaN _ true _, _ => Some (raise InvalidOperation "sNaN")
  | _, NaN _ true _ => Some (raise InvalidOperation "sNaN")
  | NaN s false p, _ => Some (Ok (fix_nan s p))
  | _, NaN s false p => Some (Ok (fix_nan s p))
  | _, _ => None
  end.

Definition signed (s : bool) (c : N) : Z :=
  if s then - Z.of_N c else Z.of_N c.

Definition negate (a : Decimal) : Decimal :=
  match a with
  | Finite s c e => Finite (negb s) c e
  | Infinity s => Infinity (negb s)
  | NaN s g p => NaN (negb s) g p
  end.

(** [a + b].  The sum of two finite values is computed exactly at the
    smaller exponent and then rounded; a zero sum of two zeros is negative
    only when both are, and an exact cancellation is positive. *)
Definition add (a b : Decimal) : result Decimal :=
  match check_nans a b with
  | Some r => r
  | None =>
      match a, b with
      | Infinity sa, Infinity sb =>
          if xorb sa sb then raise InvalidOperation "-INF + INF" else Ok a
      | Infinity _, _ => Ok a
      | _, Infinity _ => Ok b
      | Finite sa ca ea, Finite sb cb eb =>
          let e := Z.min ea eb in
          let z := signed sa (ca * pow10 (ea - e))
                   + signed sb (cb * pow10 (eb - e)) in
          if (ca =? 0)%N && (cb =? 0)%N then fix_finite (sa && sb) 0 e
          else fix_finite (z <? 0) (Z.abs_N z) e
      | _, _ => raise InvalidOperation "sNaN"
      end
  end.

(** [a - b] is [a + (-b)] once the NaNs are dealt with. *)
Definition sub (a b : Decimal) : result Decimal :=
  match check_nans a b with
  | Some r => r
  | None => add a (negate b)
  end.

Definition is_zero (a : Decimal) : bool :=
  match a with
  | Finite _ c _ => (c =? 0)%N
  | _ => false
  end.

(** [a * b]. *)
Definition mul (a b : Decimal) : result Decimal :=
  match check_nans a b with
  | Some r => r
  | None =>
      match a, b with
      | Infinity sa, Infinity sb => Ok (Infinity (xorb sa sb))
      | Infinity sa, Finite sb cb _ =>
          if (cb =? 0)%N then raise InvalidOperation "(+-)INF * 0"
          else Ok (Infinity (xorb sa sb))
      | Finite sa ca _, Infinity sb =>
          if (ca =? 0)%N then raise InvalidOperation "0 * (+-)INF"
          else Ok (Infinity (xorb sa sb))
      | Finite sa ca ea, Finite sb cb eb =>
          fix_finite (xorb sa sb) (ca * cb) (ea + eb)
      | _, _ => raise InvalidOperation "sNaN"
      end
  end.

(** The loop of [Decimal.__truediv__] on an exact quotient: drop trailing
    zeros while the exponent is below the ideal one. *)
Fixpoint strip_zeros (fuel : nat) (coeff : N) (exp : Z) : N * Z :=
  match fuel with
  | O => (coeff, exp)
  | S fuel' =>
      if (coeff mod 10 =? 0)%N then strip_zeros fuel' (coeff / 10)%N (exp + 1)
      else (coeff, exp)
  end.

(** [a / b]. *)
Definition div (a b : Decimal) : result Decimal :=
  match check_nans a b with
  | Some r => r
  | None =>
      match a, b with
      | Infinity _, Infinity _ => raise InvalidOperation "(+-)INF/(+-)INF"
      | Infinity sa, Finite sb _ _ => Ok (Infinity (xorb sa sb))
      | Finite sa _ _, Infinity sb => Ok (Finite (xorb sa sb) 0 Etiny)
      | Finite sa ca ea, Finite sb cb eb =>
          let sign := xorb sa sb in
          if (cb =? 0)%N then
            if (ca =? 0)%N then raise InvalidOperation "0 / 0"
            else raise DivisionByZero "x / 0"
          else if (ca =? 0)%N then fix_finite sign 0 (ea - eb)
          else
            let shift := ndigits cb - ndigits ca + prec + 1 in
            let exp := ea - eb - shift in
            let '(num, den) :=
              if shift >=? 0 then ((ca * pow10 shift)%N, cb)
              else (ca, (cb * pow10 (- shift))%N) in
            let coeff := (num / den)%N in
            let remainder := (num mod den)%N in
            if negb (remainder =? 0)%N then
              fix_finite sign
                (if (coeff mod 5 =? 0)%N then (coeff + 1)%N else coeff) exp
            else
              let '(coeff', exp') :=
                strip_zeros (Z.to_nat (ea - eb - exp)) coeff exp in
              fix_finite sign coeff' exp'
      | _, _ => raise InvalidOperation "sNaN"
      end
  end.

(** [a == 0]: a comparison with a signaling NaN raises, a quiet NaN is
    different from everything. *)
Definition eq_zero (a : Decimal) : result bool :=
  match a with
  | NaN _ true _ => raise InvalidOperation "sNaN"
  | _ => Ok (is_zero a)
  end.

(** [Decimal(n)] for a Python int. *)
Definition of_Z (z : Z) : Decimal := Finite (z <? 0) (Z.abs_N z) 0.

(** A binary fraction m * 2^e in lowest terms. *)
Fixpoint lowest_terms (m : positive) (e : Z) : positive * Z :=
  match m with
  | xO m' => if e <? 0 then lowest_terms m' (e + 1) else (m, e)
  | _ => (m, e)
  end.

(** [Decimal(f)] for a Python float: the exact value of the binary
    fraction [n / 2^k], as [n * 5^k] with exponent [-k]. *)
Definition of_float (f : spec_float) : Decimal :=
  match f with
  | S754_zero s => Finite s 0 0
  | S754_infinity s => Infinity s
  | S754_nan => NaN false false 0
  | S754_finite s m e =>
      let '(n, e') := lowest_terms m e in
      if e' >=? 0 then Finite s (Npos n * N.pow 2 (Z.to_N e')) 0
      else Finite s (Npos n * N.pow 5 (Z.to_N (- e'))) e'
  end.

(** ** [Decimal(text)]

    The numeric-string syntax of the constructor, on ASCII text: surrounding
    white space is stripped, underscores are dropped, case is ignored; then
    an optional sign and either digits with an optional fraction and an
    optional exponent, or [Inf] / [Infinity], or [NaN] / [sNaN] with
    optional diagnostic digits.  Anything else raises InvalidOperation. *)

Definition is_space (a : ascii) : bool :=
  let n := nat_of_ascii a in
  ((9 <=? n) && (n <=? 13) || (28 <=? n) && (n <=? 32))%nat.

Definition is_digit (a : ascii) : bool :=
  let n := nat_of_ascii a in ((48 <=? n) && (n <=? 57))%nat.

Definition lower (a : ascii) : ascii :=
  let n := nat_of_ascii a in
  if ((65 <=? n) && (n <=? 90))%nat then ascii_of_nat (n + 32) else a.

Fixpoint lstrip (l : list ascii) : list ascii :=
  match l with
  | a :: l' => if is_space a then lstrip l' else l
  | [] => []
  end.

Definition strip (l : list ascii) : list ascii :=
  rev (lstrip (rev (lstrip l))).

Fixpoint span_digits (l : list ascii) : list ascii * list ascii :=
  match l with
  | a :: l' =>
      if is_digit a then let '(ds, r) := span_digits l' in (a :: ds, r)
      else ([], l)
  | [] => ([], [])
  end.

Definition digit_step (acc : N) (d : ascii) : N :=
  (acc * 10 + (N_of_ascii d - 48))%N.

Definition N_of_digits (ds : list ascii) : N := fold_left digit_step ds 0%N.

Definition take_sign (l : list ascii) : bool * list ascii :=
  match l with
  | "-"%char :: r => (true, r)
  | "+"%char :: r => (false, r)
  | _ => (false, l)
  end.

(** The exponent part: nothing, or [e], an optional sign and digits. *)
Definition parse_exponent (l : list ascii) : option Z :=
  match l with
  | [] => Some 0
  | "e"%char :: r =>
      let '(s, r1) := take_sign r in
      match span_digits r1 with
      | ((_ :: _) as ds, []) => Some (signed s (N_of_digits ds))
      | _ => None
      end
  | _ => None
  end.

Definition parse_number (s : bool) (l : list ascii) : option Decimal :=
  let '(ip, r1) := span_digits l in
  let '(fp, r2) :=
    match r1 with
    | "."%char :: r => span_digits r
    | _ => ([], r1)
    end in
  match (ip ++ fp)%list with
  | [] => None
  | ds =>
      match parse_exponent r2 with
      | Some e => Some (Finite s (N_of_digits ds) (e - Z.of_nat (List.length fp)))
      | None => None
      end
  end.

Definition parse_payload (l : list ascii) : option N :=
  match span_digits l with
  | (ds, []) => Some (N_of_digits ds)
  | _ => None
  end.

Definition parse_special (s : bool) (l : list ascii) : option Decimal :=
  match l with
  | ["i"; "n"; "f"]%char
  | ["i"; "n"; "f"; "i"; "n"; "i"; "t"; "y"]%char => Some (Infinity s)
  | "n"%char :: "a"%char :: "n"%char :: r =>
      option_map (NaN s false) (parse_payload r)
  | "s"%char :: "n"%char :: "a"%char :: "n"%char :: r =>
      option_map (NaN s true) (parse_payload r)
  | _ => None
  end.

Definition of_string (text : string) : result Decimal :=
  let l := strip (list_ascii_of_string text) in
  let l := map lower (filter (fun a => negb (Ascii.eqb a "_")) l) in
  let '(s, r) := take_sign l in
  match parse_number s r with
  | Some d => Ok d
  | None =>
      match parse_special s r with
      | Some d => Ok d
      | None => raise InvalidOperation "[<class 'decimal.ConversionSyntax'>]"
      end
  end.

(** [a == b] on values that are not signaling NaNs: numeric equality; a
    NaN is different from everything, itself included. *)
Definition eqb (a b : Decimal) : bool :=
  match a, b with
  | Finite sa ca ea, Finite sb cb eb =>
      let e := Z.min ea eb in
      signed sa (ca * pow10 (ea - e)) =? signed sb (cb * pow10 (eb - e))
  | Infinity sa, Infinity sb => Bool.eqb sa sb
  | _, _ => false
  end.

(** ** [str(d)]: the scientific string of a Decimal *)

Definition digits_of (n : N) : string :=
  NilEmpty.string_of_uint (N.to_uint n).

Definition zeros (k : Z) : string :=
  string_of_list_ascii (repeat "0"%char (Z.to_nat k)).

Definition sign_str (s : bool) : string := if s then "-" else "".

Definition payload_str (p : N) : string :=
  if (p =? 0)%N then "" else digits_of p.

Definition str (d : Decimal) : string :=
  match d with
  | Infinity s => sign_str s ++ "Infinity"
  | NaN s false p => sign_str s ++ "NaN" ++ payload_str p
  | NaN s true p => sign_str s ++ "sNaN" ++ payload_str p
  | Finite s c e =>
      let ds := digits_of c in
      let len := Z.of_nat (String.length ds) in
      let leftdigits := e + len in
      let dotplace :=
        if (e <=? 0) && (leftdigits >? -6) then leftdigits else 1 in
      let intpart :=
        if dotplace <=? 0 then "0"
        else if dotplace >=? len then ds ++ zeros (dotplace - len)
        else substring 0 (Z.to_nat dotplace) ds in
      let fracpart :=
        if dotplace <=? 0 then "." ++ zeros (- dotplace) ++ ds
        else if dotplace >=? len then ""
        else "." ++ substring (Z.to_nat dotplace) (Z.to_nat (len - dotplace)) ds in
      let exp :=
        if leftdigits =? dotplace then ""
        else "E" ++ (if leftdigits - dotplace <? 0 then "-" else "+")
                 ++ digits_of (Z.abs_N (leftdigits - dotplace)) in
      sign_str s ++ intpart ++ fracpart ++ exp
  end.

End PyDecimal.

Abbreviation Decimal := PyDecimal.Decimal.

(* ===================================================================== *)
(** * Python values *)
(* ===================================================================== *)

(** The objects a DataFrame cell holds, and the values an operation can
    return. *)
Inductive pyval : Type :=
| PNone
| PBool (b : bool)
| PInt (z : Z)
| PFloat (f : spec_float)
| PStr (s : string)
| PDecimal (d : Decimal).

(** [Decimal(value)]. *)
Definition Decimal_of (v : pyval) : result Decimal :=
  match v with
  | PDecimal d => Ok d
  | PInt z => Ok (PyDecimal.of_Z z)
  | PBool b => Ok (PyDecimal.of_Z (if b then 1 else 0))
  | PFloat f => Ok (PyDecimal.of_float f)
  | PStr s => PyDecimal.of_string s
  | PNone =>
      Raise (mk_exn TypeError
               "conversion from NoneType to Decimal is not supported")
  end.

(* ===================================================================== *)
(** * The program state and the state-and-exception monad *)
(* ===================================================================== *)

(** Function objects: [operation.__name__] and the call itself. *)
Record function : Type := mk_function {
  __name__ : string;
  call : Decimal -> Decimal -> result pyval
}.

(** calculation.py, [class Calculation]: two operands and an operation. *)
Record Calculation : Type := mk_Calculation {
  num1 : Decimal;
  num2 : Decimal;
  operation : function
}.

Inductive log_level : Type := INFO | WARNING | ERROR | CRITICAL.

Record log_record : Type := mk_log { level : log_level; message : string }.

(** What the modelled code reads and writes.
    - [_history]: the class attribute [CalculationHistory._history];
    - [files]: the file system, the text stored under each path;
    - [environ]: [os.environ];
    - [log]: the records handed to [logging], oldest first;
    - [stdout]: the lines printed, oldest first. *)
Record world : Type := mk_world {
  _history : list Calculation;
  files : string -> option string;
  environ : string -> option string;
  log : list log_record;
  stdout : list string
}.

Definition set_history (h : list Calculation) (w : world) : world :=
  mk_world h (files w) (environ w) (log w) (stdout w).

Definition write_file (path text : string) (w : world) : world :=
  mk_world (_history w)
    (fun p => if String.eqb p path then Some text else files w p)
    (environ w) (log w) (stdout w).

Definition add_log (r : log_record) (w : world) : world :=
  mk_world (_history w) (files w) (environ w) (log w ++ [r]) (stdout w).

Definition add_stdout (line : string) (w : world) : world :=
  mk_world (_history w) (files w) (environ w) (log w) (stdout w ++ [line]).

(** A computation: from the state before to an outcome and the state
    after.  A raise keeps the state reached. *)
Definition M (A : Type) : Type := world -> result A * world.

Definition ret {A} (a : A) : M A := fun w => (Ok a, w).

Definition bind {A B} (m : M A) (k : A -> M B) : M B :=
  fun w => match m w with
           | (Ok a, w') => k a w'
           | (Raise e, w') => (Raise e, w')
           end.

Definition raise {A} (c : exn_class) (msg : string) : M A :=
  fun w => (Raise (mk_exn c msg), w).

Definition reraise {A} (e : exn) : M A := fun w => (Raise e, w).

(** A pure call that may raise. *)
Definition lift {A} (r : result A) : M A := fun w => (r, w).

Definition modify (f : world -> world) : M unit := fun w => (Ok tt, f w).

Definition gets {A} (f : world -> A) : M A := fun w => (Ok (f w), w).

(** [try: body / except ...: handler]: the handler receives the exception
    and the state reached by the body; it re-raises what no clause
    matches. *)
Definition try_except {A} (body : M A) (handler : exn -> M A) : M A :=
  fun w => match body w with
           | (Ok a, w') => (Ok a, w')
           | (Raise e, w') => handler e w'
           end.

Declare Scope py_scope.
Delimit Scope py_scope with py.
Notation "x <- m ;; k" := (bind m (fun x => k))
  (at level 61, m at next level, right associativity) : py_scope.
Notation "m ;; k" := (bind m (fun _ => k))
  (at level 61, right associativity) : py_scope.
Local Open Scope py_scope.

Notation "x <~ r ;; k" := (bind_result r (fun x => k))
  (at level 61, r at next level, right associativity) : py_scope.

Module logging.
Definition info (msg : string) : M unit := modify (add_log (mk_log INFO msg)).
Definition warning (msg : string) : M unit :=
  modify (add_log (mk_log WARNING msg)).
Definition error (msg : string) : M unit :=
  modify (add_log (mk_log ERROR msg)).
End logging.

Definition print (line : string) : M unit := modify (add_stdout line).

(** [os.getenv(key, default)]. *)
Definition os_getenv (key default : string) : M string :=
  gets (fun w => match environ w key with Some v => v | None => default end).

Definition endswith_slash (s : string) : bool :=
  match rev (list_ascii_of_string s) with
  | "/"%char :: _ => true
  | _ => false
  end.

Definition startswith_slash (s : string) : bool :=
  match s with
  | String "/"%char _ => true
  | _ => false
  end.

(** [os.path.join(a, b)] (POSIX). *)
Definition os_path_join (a b : string) : string :=
  if startswith_slash b then b
  else if String.eqb a "" || endswith_slash a then a ++ b
  else a ++ "/" ++ b.

(* ===================================================================== *)
(** * Python dictionaries *)
(* ===================================================================== *)

(** A [dict] with string keys keeps its items in insertion order;
  assigning to a key that is present replaces the value where it is. *)
Section Dict.
Variable V : Type.

Definition dict : Type := list (string * V).

Fixpoint dict_get (k : string) (d : dict) : option V :=
  match d with
  | [] => None
  | (k', v) :: d' => if String.eqb k k' then Some v else dict_get k d'
  end.

Definition dict_contains (k : string) (d : dict) : bool :=
  match dict_get k d with Some _ => true | None => false end.

Fixpoint dict_set (k : string) (v : V) (d : dict) : dict :=
  match d with
  | [] => [(k, v)]
  | (k', v') :: d' =>
      if String.eqb k k' then (k', v) :: d'
      else (k', v') :: dict_set k v d'
  end.

Definition dict_keys (d : dict) : list string := map fst d.
Definition dict_values (d : dict) : list V := map snd d.
End Dict.

(* ===================================================================== *)
(** * operations.py: [ArithmeticOperations] *)
(* ===================================================================== *)

Module ArithmeticOperations.

Definition addition_body (num1 num2 : Decimal) : result pyval :=
  r <~ PyDecimal.add num1 num2 ;; Ok (PDecimal r).

Definition subtraction_body (num1 num2 : Decimal) : result pyval :=
  r <~ PyDecimal.sub num1 num2 ;; Ok (PDecimal r).

Definition multiplication_body (num1 num2 : Decimal) : result pyval :=
  r <~ PyDecimal.mul num1 num2 ;; Ok (PDecimal r).

(** [if num2 == 0: raise ZeroDivisionError(...) else: return num1 / num2] *)
Definition division_body (num1 num2 : Decimal) : result pyval :=
  z <~ PyDecimal.eq_zero num2 ;;
  if (z : bool) then Raise (mk_exn ZeroDivisionError "Cannot divide by zero.")
  else r <~ PyDecimal.div num1 num2 ;; Ok (PDecimal r).

Definition addition : function := mk_function "addition" addition_body.
Definition subtraction : function := mk_function "subtraction" subtraction_body.
Definition multiplication : function :=
  mk_function "multiplication" multiplication_body.
Definition division : function := mk_function "division" division_body.

End ArithmeticOperations.

(** [from app.calculator.operations import ArithmeticOperations as AO] *)
Module AO := ArithmeticOperations.

(* ===================================================================== *)
(** * calculation.py: [Calculation] *)
(* ===================================================================== *)

(** [Calculation.create_calculation(num1, num2, operation)] *)
Definition create_calculation (num1 num2 : Decimal) (operation : function)
  : Calculation :=
  mk_Calculation num1 num2 operation.

(** [self.operation(self.num1, self.num2)] *)
Definition compute (self : Calculation) : result pyval :=
  call (operation self) (num1 self) (num2 self).

(* ===================================================================== *)
(** * pandas: data frames and the CSV layer *)
(* ===================================================================== *)

(** A DataFrame: column labels and rows of cells. *)
Record DataFrame : Type := mk_DataFrame {
  columns : list string;
  rows : list (list pyval)
}.

(** [pd.DataFrame(records)] for a list of dicts with the same keys: the
    keys are the columns, each dict a row. *)
Definition pd_DataFrame (records : list (dict pyval)) : DataFrame :=
  mk_DataFrame
    (match records with r :: _ => dict_keys r | [] => [] end)
    (map (@dict_values pyval) records).

(** [row[label]] for a row of [df.iterrows()]: the cell under the column
    label, KeyError when the frame has no such column. *)
Definition getitem (cols : list string) (row : list pyval) (label : string)
  : result pyval :=
  match dict_get label (combine cols row) with
  | Some v => Ok v
  | None => Raise (mk_exn KeyError ("'" ++ label ++ "'"))
  end.

(** The text layer of pandas is outside the sources: [to_csv] is the text
    [df.to_csv(path, index=False)] stores, [read_csv] what [pd.read_csv]
    makes of the text of an existing file.  Writing is taken to succeed. *)
Class CsvLayer : Type := {
  to_csv : DataFrame -> string;
  read_csv : string -> result DataFrame
}.

(* ===================================================================== *)
(** * calculations.py: [CalculationHistory] *)
(* ===================================================================== *)

(** [del l[i]] for an index within the list. *)
Definition list_del {A} (i : nat) (l : list A) : list A :=
  firstn i l ++ skipn (S i) l.

(** [key in d] and [d.get(key, default)] for a dict with string keys and
    any cell as the key: only a string can be found. *)
Definition key_in {V} (key : pyval) (d : dict V) : bool :=
  match key with
  | PStr s => dict_contains s d
  | _ => false
  end.

Definition get_default {V} (key : pyval) (default : V) (d : dict V) : V :=
  match key with
  | PStr s => match dict_get s d with Some v => v | None => default end
  | _ => default
  end.

(** The table of [load_history_from_csv]. *)
Definition operation_mapping : dict function :=
  [ ("addition", AO.addition);
    ("subtraction", AO.subtraction);
    ("multiplication", AO.multiplication);
    ("division", AO.division) ].

(** [lambda x, y: None] *)
Definition lambda_None : function :=
  mk_function "<lambda>" (fun _ _ => Ok PNone).

(** The list comprehension of [load_history_from_csv] over the rows of
    [df.iterrows()]: the condition first, then the operands left to right;
    the first exception ends it. *)
Fixpoint comprehension (cols : list string) (rs : list (list pyval))
  : result (list Calculation) :=
  match rs with
  | [] => Ok []
  | row :: rs' =>
      op <~ getitem cols row "fld_Operation" ;;
      if key_in op operation_mapping then
        a <~ getitem cols row "fld_Operand1" ;;
        d1 <~ Decimal_of a ;;
        b <~ getitem cols row "fld_Operand2" ;;
        d2 <~ Decimal_of b ;;
        tl <~ comprehension cols rs' ;;
        Ok (mk_Calculation d1 d2 (get_default op lambda_None operation_mapping)
              :: tl)
      else comprehension cols rs'
  end.

Section History.

Context {csv : CsvLayer}.

(** [cls._history.append(calculation)] *)
Definition add_calculation (calculation : Calculation) : M unit :=
  modify (fun w => set_history (_history w ++ [calculation]) w).

Definition get_history : M (list Calculation) := gets _history.

(** [cls._history.clear()] *)
Definition clear_history : M unit := modify (set_history []).

(** [cls._history[-1]] if the history is not empty, else [None]. *)
Definition get_latest_history : M (option Calculation) :=
  gets (fun w => match _history w with
                 | [] => None
                 | c :: h => Some (last h c)
                 end).

(** The record [save_history_to_csv] builds for one calculation. *)
Definition record_of (calc : Calculation) : dict pyval :=
  [ ("fld_Operation", PStr (__name__ (operation calc)));
    ("fld_Operand1", PDecimal (num1 calc));
    ("fld_Operand2", PDecimal (num2 calc)) ].

(** An empty history is reported on standard output and nothing is
    written.  Otherwise the frame of the records is written under the path;
    [os.makedirs(data_dir, exist_ok=True)] is taken to succeed. *)
Definition save_history_to_csv : M unit :=
  h <- gets _history ;;
  match h with
  | [] => print "No calculations in history to save."
  | _ :: _ =>
      data_dir <- os_getenv "DATA_DIR" "./" ;;
      file_name <- os_getenv "CALC_HISTORY_FILE" "calculator_history.csv" ;;
      let file_path := os_path_join data_dir file_name in
      let df := pd_DataFrame (map record_of h) in
      modify (write_file file_path (to_csv df)) ;;
      logging.info ("History saved to " ++ file_name)
  end.

Definition delete_calculation_by_index (index : Z) : M unit :=
  h <- gets _history ;;
  if (0 <=? index) && (index <? Z.of_nat (List.length h)) then
    modify (set_history (list_del (Z.to_nat index) h)) ;;
    save_history_to_csv
  else raise IndexError "Calculation index out of range.".

(** [pd.read_csv(file_path)]: FileNotFoundError for a path without a file,
    otherwise what the CSV layer makes of the text. *)
Definition pd_read_csv (file_path : string) : M DataFrame :=
  fun w => match files w file_path with
           | None =>
               (Raise (mk_exn FileNotFoundError
                         ("[Errno 2] No such file or directory: '"
                          ++ file_path ++ "'")), w)
           | Some text => (read_csv text, w)
           end.

Definition load_history_from_csv : M unit :=
  data_dir <- os_getenv "DATA_DIR" "./" ;;
  file_name <- os_getenv "CALC_HISTORY_FILE" "calculator_history.csv" ;;
  let file_path := os_path_join data_dir file_name in
  try_except
    (df <- pd_read_csv file_path ;;
     h <- lift (comprehension (columns df) (rows df)) ;;
     modify (set_history h) ;;
     logging.info "Calculation history loaded successfully.")
    (fun e =>
       if isinstance e EmptyDataError then
         logging.info "The history CSV file is empty. No history to load."
       else if isinstance e FileNotFoundError then
         logging.info "The history CSV file was not found."
       else if isinstance e Exception then
         logging.error
           ("An error occurred while loading history: " ++ exn_str e)
       else reraise e).

End History.

(* ===================================================================== *)
(** * calculator/__init__.py: [Calculator] *)
(* ===================================================================== *)

Module Calculator.

(** Create the calculation, record it, then compute it. *)
Definition _calculate_and_record (a b : Decimal) (operation : function)
  : M pyval :=
  let calculation := create_calculation a b operation in
  add_calculation calculation ;;
  lift (compute calculation).

Definition add (a b : Decimal) : M pyval :=
  _calculate_and_record a b AO.addition.

Definition subtract (a b : Decimal) : M pyval :=
  _calculate_and_record a b AO.subtraction.

Definition multiply (a b : Decimal) : M pyval :=
  _calculate_and_record a b AO.multiplication.

Definition divide (a b : Decimal) : M pyval :=
  _calculate_and_record a b AO.division.

End Calculator.

(* ===================================================================== *)
(** * commands/__init__.py: [Command] and [CommandHandler] *)
(* ===================================================================== *)

(** A command plugin: its menu name and description, and [execute], which
    runs on the program state and may raise anything. *)
Record Command : Type := mk_Command {
  name : string;
  description : string;
  execute : list string -> M unit
}.

(** The base class: empty name and description, [execute] not implemented. *)
Definition Command_base : Command :=
  mk_Command "" ""
    (fun _ => raise NotImplementedError "Command execution not implemented.").

(** [self.commands]: command instances keyed by their names. *)
Record CommandHandler : Type := mk_CommandHandler {
  commands : dict Command
}.

(** [CommandHandler()] *)
Definition CommandHandler_init : CommandHandler := mk_CommandHandler [].

(** Returns the handler after the registration. *)
Definition register_command (self : CommandHandler) (command : Command)
  : M CommandHandler :=
  (if dict_contains (name command) (commands self) then
     logging.warning
       ("Command '" ++ name command ++ "' is already registered. Overwriting.")
   else ret tt) ;;
  let self' :=
    mk_CommandHandler (dict_set (name command) command (commands self)) in
  logging.info ("Command '" ++ name command ++ "' registered successfully.") ;;
  ret self'.

(** [[(cmd.name, cmd.description) for cmd in self.commands.values()]] *)
Definition get_commands (self : CommandHandler) : list (string * string) :=
  map (fun cmd => (name cmd, description cmd)) (dict_values (commands self)).

(** [self.commands.get(name)]; a missing command is logged and raises
    KeyError; a found one is executed under [except Exception].  A command
    instance is a plain object, hence true in [if not command]. *)
Definition execute_command (self : CommandHandler) (cmd_name : string)
  (args : list string) : M unit :=
  match dict_get cmd_name (commands self) with
  | None =>
      logging.error ("Command '" ++ cmd_name ++ "' not found.") ;;
      raise KeyError ""
  | Some command =>
      try_except (execute command args)
        (fun e =>
           if isinstance e Exception then
             logging.error
               ("Error executing command '" ++ cmd_name ++ "': " ++ exn_str e)
           else reraise e)
  end.

(* ===================================================================== *)
(** * Text *)
(* ===================================================================== *)

(** Python strings are modelled on ASCII text.  [LF] and [TAB] are the
    escapes [\n] and [\t] of the sources. *)
Definition LF : string := String (ascii_of_nat 10) "".
Definition TAB : string := String (ascii_of_nat 9) "".

(** [s.lower()] *)
Definition str_lower (s : string) : string :=
  string_of_list_ascii (map PyDecimal.lower (list_ascii_of_string s)).

(** [s.split()]: the words of [s], the maximal runs of characters that are
    not white space ([str.isspace]: the characters 9 to 13 and 28 to 32).
    [word] holds the characters of the current word, last first. *)
Fixpoint split_words (l word : list ascii) : list string :=
  match l with
  | [] =>
      match word with
      | [] => []
      | _ :: _ => [string_of_list_ascii (rev word)]
      end
  | a :: l' =>
      if PyDecimal.is_space a then
        match word with
        | [] => split_words l' []
        | _ :: _ => string_of_list_ascii (rev word) :: split_words l' []
        end
      else split_words l' (a :: word)
  end.

Definition str_split (s : string) : list string :=
  split_words (list_ascii_of_string s) [].

(** [str(n)] for a Python int. *)
Definition str_int (z : Z) : string := NilZero.string_of_int (Z.to_int z).

(** [int(text)]: white space around the literal is dropped (for ASCII text
    the characters 9 to 13 and 32), then an optional sign and decimal
    digits, where single underscores may stand between digits.  Anything
    else raises ValueError, and so does a literal of more than 4300 digits
    (the default of [sys.set_int_max_str_digits]).  The text of the
    ValueError, which quotes the literal, is shortened. *)
Definition is_int_space (a : ascii) : bool :=
  let n := nat_of_ascii a in
  ((9 <=? n) && (n <=? 13) || (n =? 32))%nat.

Fixpoint lstrip_int (l : list ascii) : list ascii :=
  match l with
  | a :: l' => if is_int_space a then lstrip_int l' else l
  | [] => []
  end.

(** The digits of a literal: [after_digit] tells whether the character
    before was a digit; [count] is the number of digits read. *)
Fixpoint int_digits (l : list ascii) (after_digit : bool) (acc : N)
  (count : nat) : option (N * nat) :=
  match l with
  | [] => if after_digit then Some (acc, count) else None
  | a :: l' =>
      if PyDecimal.is_digit a then
        int_digits l' true (PyDecimal.digit_step acc a) (S count)
      else if Ascii.eqb a "_" && after_digit then int_digits l' false acc count
      else None
  end.

Definition int_max_str_digits : nat := 4300.

Definition int_of_string (text : string) : result Z :=
  let l := rev (lstrip_int (rev (lstrip_int (list_ascii_of_string text)))) in
  let '(s, r) := PyDecimal.take_sign l in
  match int_digits r false 0%N 0%nat with
  | Some (n, count) =>
      if (int_max_str_digits <? count)%nat then
        Raise (mk_exn ValueError
                 "Exceeds the limit (4300 digits) for integer string conversion")
      else Ok (PyDecimal.signed s n)
  | None => Raise (mk_exn ValueError "invalid literal for int() with base 10")
  end.

(** [f"{v}"] for the value an operation returns.  The four operations
    return Decimals; no float reaches this point, and one would be written
    here with all its digits. *)
Definition format_value (v : pyval) : string :=
  match v with
  | PNone => "None"
  | PBool b => if b then "True" else "False"
  | PInt z => str_int z
  | PFloat f => PyDecimal.str (PyDecimal.of_float f)
  | PStr s => s
  | PDecimal d => PyDecimal.str d
  end.

(** calculation.py, [Calculation.__repr__]:
    [f"Calculation({self.num1}, {self.num2}, {self.operation.__name__})"] *)
Definition __repr__ (self : Calculation) : string :=
  "Calculation(" ++ PyDecimal.str (num1 self) ++ ", "
  ++ PyDecimal.str (num2 self) ++ ", " ++ __name__ (operation self) ++ ")".

(** [logging.critical(msg)]; [exc_info=True] adds the traceback to the
    output of the handler, not to the message of the record. *)
Definition logging_critical (msg : string) : M unit :=
  modify (add_log (mk_log CRITICAL msg)).

(* ===================================================================== *)
(** * calculator/calc_utils.py *)
(* ===================================================================== *)

Module calc_utils.

(** The table of [perform_operation]: the methods of [Calculator]. *)
Definition operation_mapping : dict (Decimal -> Decimal -> M pyval) :=
  [ ("add", Calculator.add);
    ("subtract", Calculator.subtract);
    ("multiply", Calculator.multiply);
    ("divide", Calculator.divide) ].

(** Returns the message for the user.  The first record is logged before
    the [try] block is entered. *)
Definition perform_operation (num1 num2 : Decimal) (operation_name : string)
  : M string :=
  logging.info
    ("Attempting to perform operation: " ++ operation_name
     ++ " with operands " ++ PyDecimal.str num1 ++ " and "
     ++ PyDecimal.str num2) ;;
  try_except
    (match dict_get operation_name operation_mapping with
     | None =>
         logging.error ("Unknown operation: " ++ operation_name) ;;
         ret ("Unknown operation: " ++ operation_name)
     | Some operation_callable =>
         result <- operation_callable num1 num2 ;;
         logging.info
           ("Operation " ++ operation_name
            ++ " completed successfully. Result: " ++ format_value result) ;;
         ret ("The result of " ++ PyDecimal.str num1 ++ " " ++ operation_name
              ++ " " ++ PyDecimal.str num2 ++ " is equal to "
              ++ format_value result)
     end)
    (fun e =>
       if isinstance e ZeroDivisionError then
         logging.warning "Division by zero attempt." ;;
         ret "An error occurred: Cannot divide by zero"
       else if isinstance e ValueError then
         logging.error ("Value error in operation." ++ LF) ;;
         ret (exn_str e)
       else if isinstance e Exception then
         logging_critical ("Unexpected error in operation." ++ LF) ;;
         ret ("An unexpected error occurred: " ++ exn_str e)
       else reraise e).

(** The two conversions share one [try]; its handler ends the function,
    which is the [None] below. *)
Definition calculate_and_print (num1_str num2_str operation_name : string)
  : M unit :=
  logging.info
    ("Calculating " ++ operation_name ++ " for inputs '" ++ num1_str
     ++ "' and '" ++ num2_str ++ "'") ;;
  operands <-
    try_except
      (num1_decimal <- lift (PyDecimal.of_string num1_str) ;;
       num2_decimal <- lift (PyDecimal.of_string num2_str) ;;
       ret (Some (num1_decimal, num2_decimal)))
      (fun e =>
         if isinstance e InvalidOperation then
           logging.warning
             ("Invalid number input: '" ++ num1_str ++ "' or '" ++ num2_str
              ++ "' is not a valid number." ++ LF) ;;
           print ("Invalid number input: " ++ num1_str ++ " or " ++ num2_str
                  ++ " is not a valid number.") ;;
           ret None
         else reraise e) ;;
  match operands with
  | None => ret tt
  | Some (num1_decimal, num2_decimal) =>
      result_message <-
        perform_operation num1_decimal num2_decimal operation_name ;;
      logging.info
        ("Result of " ++ operation_name ++ ": " ++ result_message ++ LF) ;;
      print result_message
  end.

End calc_utils.

(* ===================================================================== *)
(** * Interactive code: standard input *)
(* ===================================================================== *)

(** The code that talks to the user reads lines with [input].  An
    interactive computation takes the lines still to be read and returns,
    with its outcome and the state, the lines it has left.  Past the last
    line [input] raises EOFError.  The prompt of [input] goes to the
    terminal and is not recorded in [stdout], which holds what [print]
    wrote. *)
Definition IO (A : Type) : Type :=
  list string -> world -> result A * list string * world.

Declare Scope io_scope.
Delimit Scope io_scope with io.
Bind Scope io_scope with IO.
Bind Scope py_scope with M.

Definition io_ret {A} (a : A) : IO A := fun stdin w => (Ok a, stdin, w).

Definition io_bind {A B} (m : IO A) (k : A -> IO B) : IO B :=
  fun stdin w =>
    match m stdin w with
    | (Ok a, stdin', w') => k a stdin' w'
    | (Raise e, stdin', w') => (Raise e, stdin', w')
    end.

Definition io_reraise {A} (e : exn) : IO A :=
  fun stdin w => (Raise e, stdin, w).

(** A computation that reads nothing. *)
Definition io_lift {A} (m : M A) : IO A :=
  fun stdin w => let '(r, w') := m w in (r, stdin, w').

Definition io_try_except {A} (body : IO A) (handler : exn -> IO A) : IO A :=
  fun stdin w =>
    match body stdin w with
    | (Ok a, stdin', w') => (Ok a, stdin', w')
    | (Raise e, stdin', w') => handler e stdin' w'
    end.

Notation "x <- m ;; k" := (io_bind m (fun x => k))
  (at level 61, m at next level, right associativity) : io_scope.
Notation "m ;; k" := (io_bind m (fun _ => k))
  (at level 61, right associativity) : io_scope.

(** The built-in EOFError, a direct subclass of Exception. *)
Definition EOFError : exn_class := UserDefined "EOFError" Exception.

Definition end_of_input {A} : IO A :=
  io_reraise (mk_exn EOFError "EOF when reading a line").

(** [input(prompt)] *)
Definition input : IO string :=
  fun stdin w =>
    match stdin with
    | [] => end_of_input [] w
    | line :: stdin' => (Ok line, stdin', w)
    end.

(* ===================================================================== *)
(** * plugins/__init__.py: the shared loop of the operation plugins *)
(* ===================================================================== *)

Module plugins.

Definition parse_input (user_input : string) : result (string * string) :=
  match str_split user_input with
  | [num1_str; num2_str] => Ok (num1_str, num2_str)
  | _ =>
      Raise (mk_exn ValueError
               "Invalid input format. Please use: <operand1> <operand2>")
  end.

(** The [try] statement of the loop, for a line that is not [exit]. *)
Definition attempt (operation_name user_input : string) : M unit :=
  try_except
    (parts <- lift (parse_input user_input) ;;
     calc_utils.calculate_and_print (fst parts) (snd parts) operation_name ;;
     print ("Continue to " ++ operation_name
            ++ " or type 'exit' to return to the main menu." ++ LF))
    (fun e =>
       if isinstance e Exception then
         logging.warning
           ("Invalid input in " ++ operation_name ++ " operation: "
            ++ exn_str e ++ LF) ;;
         print ("Error: " ++ exn_str e ++ LF
                ++ "Please try again or type 'exit' to exit." ++ LF)
       else reraise e).

(** [while True]: one line is read in each pass and nothing else reads, so
    the loop runs along the lines to come. *)
Fixpoint loop (operation_name : string) (stdin : list string) (w : world)
  : result unit * list string * world :=
  match stdin with
  | [] => end_of_input [] w
  | user_input :: stdin' =>
      if String.eqb (str_lower user_input) "exit" then
        io_lift
          (logging.info ("Exiting " ++ operation_name ++ " operation." ++ LF))
          stdin' w
      else
        match attempt operation_name user_input w with
        | (Ok _, w') => loop operation_name stdin' w'
        | (Raise e, w') => (Raise e, stdin', w')
        end
  end.

Definition execute_operation (user_input_prompt operation_name : string)
  : IO unit :=
  (io_lift
     (logging.info ("Starting " ++ operation_name ++ " operation.") ;;
      print user_input_prompt ;;
      print (TAB ++ "Enter your two numbers separated by space") ;;
      print (TAB ++ "Type 'exit' at any time to return to the main menu.") ;;
      print (TAB ++ TAB ++ "[Example]: 2 3"))%py ;;
   loop operation_name)%io.

End plugins.

(* ===================================================================== *)
(** * plugins/add, subtract, multiply, divide: the operation commands *)
(* ===================================================================== *)

Module AddCommand.
Definition name : string := "add".
Definition description : string := "Add two numbers together.".
Definition execute (args : list string) : IO unit :=
  (io_lift (logging.info "Executing addition command") ;;
   plugins.execute_operation ("Operation: Addition" ++ LF) name)%io.
End AddCommand.

Module SubtractCommand.
Definition name : string := "subtract".
Definition description : string := "Subtract two numbers from one another.".
Definition execute (args : list string) : IO unit :=
  (io_lift (logging.info "Executing subtraction command") ;;
   plugins.execute_operation ("Operation: Subtraction" ++ LF) name)%io.
End SubtractCommand.

Module MultiplyCommand.
Definition name : string := "multiply".
Definition description : string := "Multiply two numbers together.".
Definition execute (args : list string) : IO unit :=
  (io_lift (logging.info "Executing multiplication command") ;;
   plugins.execute_operation ("Operation: Multiplication" ++ LF) name)%io.
End MultiplyCommand.

Module DivideCommand.
Definition name : string := "divide".
Definition description : string := "Divide two numbers from one another.".
Definition execute (args : list string) : IO unit :=
  (io_lift (logging.info "Executing division command") ;;
   plugins.execute_operation ("Operation: Division" ++ LF) name)%io.
End DivideCommand.

(* ===================================================================== *)
(** * plugins/history: [HistoryCommand] *)
(* ===================================================================== *)

Module HistoryCommand.

Definition name : string := "history".
Definition description : string :=
  "Manage calculation history (retrieve, clear, save, load, delete).".

Definition print_result (calculation : Calculation) : M unit :=
  try_except
    (result <- lift (compute calculation) ;;
     print (__repr__ calculation ++ " results in " ++ format_value result))
    (fun e =>
       if isinstance e ZeroDivisionError then
         print (__repr__ calculation ++ " is undefined.")
       else if isinstance e Exception then
         print ("Error occured: " ++ exn_str e)
       else reraise e).

Definition _display_most_recent_calculation : M unit :=
  most_recent <- get_latest_history ;;
  match most_recent with
  | Some calculation => print_result calculation
  | None => print "No calculations in history."
  end.

(** The [for] loop over [enumerate(all_calculations, start=idx)]. *)
Fixpoint display_each (idx : Z) (all_calculations : list Calculation)
  : M unit :=
  match all_calculations with
  | [] => ret tt
  | calculation :: rest =>
      try_except
        (result <- lift (compute calculation) ;;
         print (str_int idx ++ ". " ++ __repr__ calculation ++ " results in "
                ++ format_value result))
        (fun e =>
           if isinstance e ZeroDivisionError then
             print (str_int idx ++ ". " ++ __repr__ calculation
                    ++ " is undefined")
           else reraise e) ;;
      display_each (idx + 1) rest
  end.

Definition _display_all_calculations : M unit :=
  all_calculations <- get_history ;;
  match all_calculations with
  | _ :: _ =>
      print (LF ++ "All Calculations:") ;;
      display_each 1 all_calculations
  | [] => print "No calculations in history."
  end.

Definition _clear_history : M unit :=
  h <- get_history ;;
  match h with
  | _ :: _ => clear_history ;; print "Calculation history cleared."
  | [] => print "History is already empty, no history to clear."
  end.

Definition _save_calculation_history {csv : CsvLayer} : M unit :=
  save_history_to_csv.

Definition _load_calculation_history {csv : CsvLayer} : M unit :=
  try_except load_history_from_csv
    (fun e =>
       if isinstance e Exception then
         print (LF ++ "Error loading history: " ++ exn_str e)
       else reraise e).

(** The index the user types counts from 1. *)
Definition _delete_calculation_from_history {csv : CsvLayer} : IO unit :=
  (h <- io_lift get_history ;;
   match h with
   | [] => io_lift (print "No history available to delete.")
   | _ :: _ =>
       io_lift _display_all_calculations ;;
       io_try_except
         (answer <- input ;;
          n <- io_lift (lift (int_of_string answer)) ;;
          let index_to_delete := n - 1 in
          io_lift (delete_calculation_by_index index_to_delete) ;;
          io_lift
            (print ("Calculation at index " ++ str_int (index_to_delete + 1)
                    ++ " has been deleted.")))
         (fun e =>
            if isinstance e ValueError then
              io_lift
                (print "Invalid index. Enter a valid index or 'exit' to return to history menu.")
            else if isinstance e IndexError then
              io_lift (print "No calculation found at the given index.")
            else io_reraise e)
   end)%io.

(** The table of [process_choice]. *)
Definition options {csv : CsvLayer} : dict (IO unit) :=
  [ ("1", io_lift _display_most_recent_calculation);
    ("2", io_lift _display_all_calculations);
    ("3", io_lift _clear_history);
    ("4", io_lift _save_calculation_history);
    ("5", io_lift _load_calculation_history);
    ("6", _delete_calculation_from_history) ].

Definition process_choice {csv : CsvLayer} (choice : string) : IO unit :=
  match dict_get choice options with
  | Some action => action
  | None =>
      io_lift
        (print "Invalid choice. Select a valid option or type 'exit' to return to main menu.")
  end.

Definition print_menu : M unit :=
  print (LF ++ "--- History Menu ---") ;;
  print "1. Retrieve the most recent calculation" ;;
  print "2. Retrieve all calculations" ;;
  print "3. Clear calculation history" ;;
  print "4. Save calculation history to CSV" ;;
  print "5. Load calculation history from CSV" ;;
  print "6. Delete a calculation from history" ;;
  print (LF ++ "Type 'exit' to return to the main menu.").

(** [while True]: each pass reads at least one line, so a loop that starts
    with more passes allowed than there are lines to come ends before it has
    used them; the outcome for no pass left is never produced. *)
Fixpoint loop {csv : CsvLayer} (passes : nat) : IO unit :=
  match passes with
  | O => end_of_input
  | S passes' =>
      (io_lift print_menu ;;
       choice <- input ;;
       if String.eqb (str_lower choice) "exit" then io_ret tt
       else process_choice choice ;; loop passes')%io
  end.

Definition execute {csv : CsvLayer} (args : list string) : IO unit :=
  fun stdin => loop (S (List.length stdin)) stdin.

End HistoryCommand.

(* ===================================================================== *)
(** * app/__init__.py: the menu command and the command line *)
(* ===================================================================== *)

Module DynamicMenuCommand.

Definition name : string := "show_menu".
Definition description : string := "Show the dynamic menu of all commands.".

(** [self.command_handler] is the handler as it is when the command runs. *)
Definition execute (command_handler : CommandHandler) (args : list string)
  : M unit :=
  let commands := get_commands command_handler in
  let menu :=
    fold_left
      (fun menu item =>
         menu ++ TAB ++ fst item ++ ": " ++ snd item ++ LF)
      commands ("Application Menu:" ++ LF) in
  print menu ;;
  logging.info "Displayed the dynamic menu of commands to the user.".

End DynamicMenuCommand.

Module App.

(** [self.settings.get(env_var, default_value)] on the settings that
    [load_environment_variables] copied from [os.environ]. *)
Definition get_environment_variable (settings : dict string)
  (env_var : string) (default_value : option string) : option string :=
  match dict_get env_var settings with
  | Some v => Some v
  | None => default_value
  end.

(** One pass of the loop of [start] for the line [cmd_input] read at the
    prompt: [exit] leaves the application with [sys.exit(0)], an empty line
    shows the menu, anything else is split into a command name and its
    arguments; a name that is not registered shows the menu. *)
Definition dispatch (command_handler : CommandHandler) (cmd_input : string)
  : M unit :=
  if String.eqb (str_lower cmd_input) "exit" then
    logging.info "Application exit." ;;
    raise SystemExit "0"
  else if String.eqb cmd_input "" then
    execute_command command_handler "show_menu" []
  else
    try_except
      (match str_split cmd_input with
       | cmd_name :: args => execute_command command_handler cmd_name args
       | [] =>
           raise ValueError
             "not enough values to unpack (expected at least 1, got 0)"
       end)
      (fun e =>
         if isinstance e KeyError then
           logging.error ("Unknown command: " ++ cmd_input) ;;
           execute_command command_handler "show_menu" []
         else reraise e).

End App.

(* ===================================================================== *)
(** * A reference CSV layer *)
(* ===================================================================== *)

(** The general properties below hold for every [CsvLayer].  To run [save] and
    [load] on concrete histories, [plain_csv] writes and reads comma
    separated text without quoting, and types each column read the way
    pandas does by default: 64-bit integers when every cell is one, floats
    when every cell is a number or a missing value, booleans, strings
    otherwise.  A number with a fraction or an exponent is read as the
    nearest binary64 float. *)
Module PlainCsv.

Definition nl : string := String (ascii_of_nat 10) "".

Fixpoint join (sep : string) (l : list string) : string :=
  match l with
  | [] => ""
  | [x] => x
  | x :: l' => x ++ sep ++ join sep l'
  end.

(** The text of a cell.  A float is written with all its digits. *)
Definition cell_text (v : pyval) : string :=
  match v with
  | PStr s => s
  | PDecimal d => PyDecimal.str d
  | PInt z => NilZero.string_of_int (Z.to_int z)
  | PBool b => if b then "True" else "False"
  | PFloat f => PyDecimal.str (PyDecimal.of_float f)
  | PNone => ""
  end.

(** The lines of a file, each one ended by a newline. *)
Fixpoint unlines (ls : list string) : string :=
  match ls with
  | [] => ""
  | l :: ls' => l ++ nl ++ unlines ls'
  end.

Definition write (df : DataFrame) : string :=
  unlines (join "," (columns df)
           :: map (fun r => join "," (map cell_text r)) (rows df)).

Fixpoint split_on (c : ascii) (s : string) : list string :=
  match s with
  | EmptyString => [""]
  | String a s' =>
      if Ascii.eqb a c then "" :: split_on c s'
      else match split_on c s' with
           | h :: t => String a h :: t
           | [] => [String a ""]
           end
  end.

Definition lines (text : string) : list string :=
  filter (fun l => negb (String.eqb l "")) (split_on (ascii_of_nat 10) text).

(** The texts pandas reads as a missing value. *)
Definition na_values : list string :=
  [ ""; "#N/A"; "#N/A N/A"; "#NA"; "-1.#IND"; "-1.#QNAN"; "-NaN"; "-nan";
    "1.#IND"; "1.#QNAN"; "<NA>"; "N/A"; "NA"; "NULL"; "NaN"; "None"; "n/a";
    "nan"; "null" ].

Definition is_na (c : string) : bool := existsb (String.eqb c) na_values.

Definition parse_int (c : string) : option Z :=
  let '(s, r) := PyDecimal.take_sign (list_ascii_of_string c) in
  match PyDecimal.span_digits r with
  | ((_ :: _) as ds, []) =>
      let z := PyDecimal.signed s (PyDecimal.N_of_digits ds) in
      if (- 2 ^ 63 <=? z) && (z <? 2 ^ 63) then Some z else None
  | _ => None
  end.

Definition bitlen (p : positive) : Z := Zpos (digits2_pos p).

(** The binary64 float nearest to [n / d], ties to even. *)
Definition nearest_double (s : bool) (n d : positive) : spec_float :=
  let k := Z.max 0 (55 + bitlen d - bitlen n) in
  let num := Zpos n * 2 ^ k in
  let q := num / Zpos d in
  let r := num mod Zpos d in
  let loc := if r =? 0 then loc_Exact else loc_Inexact (2 * r ?= Zpos d) in
  binary_round_aux 53 1024 s q (- k) loc.

Definition float_of_decimal (d : Decimal) : spec_float :=
  match d with
  | PyDecimal.Finite s c e =>
      match c with
      | N0 => S754_zero s
      | Npos n =>
          if e =? 0 then nearest_double s n 1
          else if e >? 0 then
            nearest_double s (n * Pos.pow 10 (Z.to_pos e))%positive 1
          else nearest_double s n (Pos.pow 10 (Z.to_pos (- e)))
      end
  | PyDecimal.Infinity s => S754_infinity s
  | PyDecimal.NaN _ _ _ => S754_nan
  end.

Definition parse_float (c : string) : option spec_float :=
  let l := map PyDecimal.lower (list_ascii_of_string c) in
  let '(s, r) := PyDecimal.take_sign l in
  match PyDecimal.parse_number s r with
  | Some d => Some (float_of_decimal d)
  | None =>
      match r with
      | ["i"; "n"; "f"]%char
      | ["i"; "n"; "f"; "i"; "n"; "i"; "t"; "y"]%char => Some (S754_infinity s)
      | _ => None
      end
  end.

Definition parse_bool (c : string) : option bool :=
  if existsb (String.eqb c) ["True"; "TRUE"; "true"] then Some true
  else if existsb (String.eqb c) ["False"; "FALSE"; "false"] then Some false
  else None.

Inductive kind : Type := KInt | KFloat | KBool | KStr.

Definition is_some {A} (o : option A) : bool :=
  match o with Some _ => true | None => false end.

Definition infer (cells : list string) : kind :=
  if forallb (fun c => is_some (parse_int c)) cells then KInt
  else if forallb (fun c => is_na c || is_some (parse_float c)) cells
  then KFloat
  else if forallb (fun c => is_some (parse_bool c)) cells then KBool
  else KStr.

Definition convert (k : kind) (c : string) : pyval :=
  match k with
  | KInt => match parse_int c with Some z => PInt z | None => PStr c end
  | KFloat =>
      match parse_float c with
      | Some f => if is_na c then PFloat S754_nan else PFloat f
      | None => PFloat S754_nan
      end
  | KBool => match parse_bool c with Some b => PBool b | None => PStr c end
  | KStr => if is_na c then PFloat S754_nan else PStr c
  end.

Fixpoint pad (n : nat) (r : list string) : list string :=
  match n with
  | O => []
  | S n' => match r with
            | c :: r' => c :: pad n' r'
            | [] => "" :: pad n' []
            end
  end.

Fixpoint convert_row (ks : list kind) (r : list string) : list pyval :=
  match ks, r with
  | k :: ks', c :: r' => convert k c :: convert_row ks' r'
  | _, _ => []
  end.

Definition read (text : string) : result DataFrame :=
  match lines text with
  | [] => Raise (mk_exn EmptyDataError "No columns to parse from file")
  | header :: data =>
      let cols := split_on "," header in
      let n := List.length cols in
      let table := map (split_on ",") data in
      if existsb (fun r => (n <? List.length r)%nat) table then
        Raise (mk_exn ParserError "Error tokenizing data")
      else
        let table := map (pad n) table in
        let kinds :=
          map (fun j => infer (map (fun r => nth j r "") table)) (seq 0 n) in
        Ok (mk_DataFrame cols (map (convert_row kinds) table))
  end.

End PlainCsv.

Definition plain_csv : CsvLayer :=
  {| to_csv := PlainCsv.write; read_csv := PlainCsv.read |}.

(* ===================================================================== *)
(** * Concrete states used in the examples *)
(* ===================================================================== *)

(** A fresh process: empty history, no file, no environment setting. *)
Definition initial_world : world :=
  mk_world [] (fun _ => None) (fun _ => None) [] [].

(** [Decimal('n')] for an integer literal. *)
Definition D (z : Z) : Decimal := PyDecimal.of_Z z.

(** [Decimal('0.1')] and [Decimal('0.2')]. *)
Definition tenth : Decimal := PyDecimal.Finite false 1 (-1).

(** The default place of the history file. *)
Definition default_path : string := "./calculator_history.csv".

(** Run a computation for its final state, and for its outcome. *)
Definition exec {A} (m : M A) (w : world) : world := snd (m w).
Definition eval {A} (m : M A) (w : world) : result A := fst (m w).

(* ===================================================================== *)
(** * Notions used in the statements *)
(* ===================================================================== *)

(** The path [save_history_to_csv] and [load_history_from_csv] compute for
    the history file. *)
Definition backing_file (w : world) : string :=
  os_path_join
    (match environ w "DATA_DIR" with Some v => v | None => "./" end)
    (match environ w "CALC_HISTORY_FILE" with
     | Some v => v
     | None => "calculator_history.csv"
     end).

(** The frame [save_history_to_csv] hands to [to_csv]. *)
Definition history_frame (h : list Calculation) : DataFrame :=
  pd_DataFrame (map record_of h).

(** The three calls of the scenario, each started in the state the previous
    one left, the third one included although it raises. *)
Definition after_add (w0 : world) : world :=
  exec (Calculator.add (D 5) (D 3)) w0.
Definition after_divide (w0 : world) : world :=
  exec (Calculator.divide (D 20) (D 4)) (after_add w0).
Definition after_divide_by_zero (w0 : world) : world :=
  exec (Calculator.divide (D 1) (D 0)) (after_divide w0).

(** The scenario as the specification words it: only the two successful
    calculations are in the history afterwards. *)
Definition scenario_as_stated (w0 : world) : Prop :=
  eval (Calculator.add (D 5) (D 3)) w0 = Ok (PDecimal (D 8)) /\
  eval (Calculator.divide (D 20) (D 4)) (after_add w0) = Ok (PDecimal (D 5)) /\
  (exists e, eval (Calculator.divide (D 1) (D 0)) (after_divide w0) = Raise e
             /\ isinstance e ZeroDivisionError = true) /\
  List.length (_history (after_divide_by_zero w0)) = 2%nat /\
  eval get_latest_history (after_divide_by_zero w0)
  = Ok (Some (mk_Calculation (D 20) (D 4) AO.division)).







(** The cells of a saved record. *)
Definition cells_of (calc : Calculation) : list pyval :=
  [ PStr (__name__ (operation calc));
    PDecimal (num1 calc);
    PDecimal (num2 calc) ].


(** The log records of [register_command]. *)
Definition overwrite_warning (c : Command) : log_record :=
  mk_log WARNING
    ("Command '" ++ name c ++ "' is already registered. Overwriting.").

Definition registered_info (c : Command) : log_record :=
  mk_log INFO ("Command '" ++ name c ++ "' registered successfully.").

(** The pair [get_commands] lists for a command. *)
Definition entry (c : Command) : string * string := (name c, description c).

(** A sequence of [register_command] calls on one handler. *)
Fixpoint register_all (self : CommandHandler) (cs : list Command)
  : M CommandHandler :=
  match cs with
  | [] => ret self
  | c :: cs' => self' <- register_command self c ;; register_all self' cs'
  end.

(** The names of a sequence in the order of their first occurrence, those
    in [seen] left out. *)
Fixpoint first_seen (seen names : list string) : list string :=
  match names with
  | [] => []
  | n :: ns =>
      if existsb (String.eqb n) seen then first_seen seen ns
      else n :: first_seen (seen ++ [n]) ns
  end.

(** The command registered last under a name. *)
Definition last_registered (n : string) (cs : list Command) : option Command :=
  find (fun c => String.eqb n (name c)) (rev cs).

(** The dictionary after a sequence of registrations. *)
Definition registered (d : dict Command) (cs : list Command) : dict Command :=
  fold_left (fun d c => dict_set (name c) c d) cs d.

(** Every command sits under its own name. *)
Definition keyed_by_name (d : dict Command) : Prop :=
  forall k c, In (k, c) d -> name c = k.

(** The records [load_history_from_csv] logs. *)
Definition loaded_info : log_record :=
  mk_log INFO "Calculation history loaded successfully.".

Definition empty_file_info : log_record :=
  mk_log INFO "The history CSV file is empty. No history to load.".

Definition file_not_found_info : log_record :=
  mk_log INFO "The history CSV file was not found.".

Definition load_error (e : exn) : log_record :=
  mk_log ERROR ("An error occurred while loading history: " ++ exn_str e).

(** What the [try] block of [load_history_from_csv] has in hand when it
    reaches the assignment to the history: the calculations built from the
    file, or the first exception of reading it and converting its rows. *)
Definition read_history {csv : CsvLayer} (w : world)
  : result (list Calculation) :=
  match files w (backing_file w) with
  | None =>
      Raise (mk_exn FileNotFoundError
               ("[Errno 2] No such file or directory: '"
                ++ backing_file w ++ "'"))
  | Some text => df <~ read_csv text ;; comprehension (columns df) (rows df)
  end.

(** A row whose operation name is one of the four of the table. *)
Definition recognized_row (cols : list string) (row : list pyval) : bool :=
  match getitem cols row "fld_Operation" with
  | Ok op => key_in op operation_mapping
  | Raise _ => false
  end.

(** A row from which [load_history_from_csv] builds the calculation [c]. *)
Definition row_restores (cols : list string) (row : list pyval)
  (c : Calculation) : Prop :=
  exists op : string,
    getitem cols row "fld_Operation" = Ok (PStr op) /\
    dict_get op operation_mapping = Some (operation c) /\
    (a <~ getitem cols row "fld_Operand1" ;; Decimal_of a) = Ok (num1 c) /\
    (b <~ getitem cols row "fld_Operand2" ;; Decimal_of b) = Ok (num2 c).

(** A calculation built from one of the four recognized operations. *)
Definition recognized (c : Calculation) : Prop :=
  In (operation c)
    [AO.addition; AO.subtraction; AO.multiplication; AO.division].

(** [save(); clear(); load()] *)
Definition save_clear_load {csv : CsvLayer} : M unit :=
  save_history_to_csv ;; clear_history ;; load_history_from_csv.





(** A process that computed 1 + 2 and saved its history. *)
Definition saved_single : world :=
  exec (add_calculation (mk_Calculation (D 1) (D 2) AO.addition) ;;
        save_history_to_csv (csv := plain_csv)) initial_world.

(** A process whose history is [[5 + 3; 20 / 4]]. *)
Definition two_entries : world :=
  exec (add_calculation (mk_Calculation (D 5) (D 3) AO.addition) ;;
        add_calculation (mk_Calculation (D 20) (D 4) AO.division))
    initial_world.

(** The record [save_history_to_csv] logs after writing. *)
Definition saved_info (w : world) : log_record :=
  mk_log INFO
    ("History saved to "
     ++ match environ w "CALC_HISTORY_FILE" with
        | Some v => v
        | None => "calculator_history.csv"
        end).

(** The outcome of [load_history_from_csv] when its [try] block raises. *)
Definition load_handler (e : exn) (w : world) : result unit * world :=
  if isinstance e EmptyDataError then (Ok tt, add_log empty_file_info w)
  else if isinstance e FileNotFoundError then
    (Ok tt, add_log file_not_found_info w)
  else if isinstance e Exception then (Ok tt, add_log (load_error e) w)
  else (Raise e, w).

(** The CSV layer gives a saved row back as it was written: the operation
    name as a string and two cells that [Decimal] converts to the
    operands. *)
Definition row_gives_back (cols : list string) (row : list pyval)
  (c : Calculation) : Prop :=
  getitem cols row "fld_Operation" = Ok (PStr (__name__ (operation c))) /\
  (a <~ getitem cols row "fld_Operand1" ;; Decimal_of a) = Ok (num1 c) /\
  (b <~ getitem cols row "fld_Operand2" ;; Decimal_of b) = Ok (num2 c).

(** The CSV layer gives the saved history back: reading the text written
    for [h] yields, row by row, the operation names and cells that
    [Decimal] converts to the operands of [h]. *)
Definition reads_back (csv : CsvLayer) (h : list Calculation) : Prop :=
  exists df : DataFrame,
    read_csv (to_csv (history_frame h)) = Ok df /\
    Forall2 (row_gives_back (columns df)) (rows df) h.

(** A process whose history is [[5 + 3; 20 / 4]] and whose history file
    holds three records, the second with an operation name outside the
    table and an operand that is not a number. *)
Definition with_foreign_row : world :=
  write_file default_path
    ("fld_Operation,fld_Operand1,fld_Operand2" ++ PlainCsv.nl
     ++ "addition,1,2" ++ PlainCsv.nl
     ++ "modulo,7,x" ++ PlainCsv.nl
     ++ "division,8,0" ++ PlainCsv.nl)
    two_entries.

(** A string without the character [c]. *)
Definition lacks (c : ascii) (s : string) : Prop :=
  forallb (fun a => negb (Ascii.eqb a c)) (list_ascii_of_string s) = true.

(** A Python int that fits the 64-bit integers of pandas. *)
Definition int64 (z : Z) : Prop := - 2 ^ 63 <= z < 2 ^ 63.

(** A recognized calculation whose operands are [Decimal(a)] and
    [Decimal(b)] for 64-bit integers [a] and [b]. *)
Definition integer_calculation (c : Calculation) : Prop :=
  recognized c /\
  exists a b, int64 a /\ int64 b /\ num1 c = D a /\ num2 c = D b.

(** The texts of the cells of a saved record, and its line in the file. *)
Definition texts_of (c : Calculation) : list string :=
  map PlainCsv.cell_text (cells_of c).

Definition row_line (c : Calculation) : string :=
  PlainCsv.join "," (texts_of c).

(** The integer a finite Decimal of exponent 0 stands for. *)
Definition Z_of_Decimal (d : Decimal) : Z :=
  match d with
  | PyDecimal.Finite s c _ => PyDecimal.signed s c
  | _ => 0
  end.

(** The cells read back for a record with integer operands. *)
Definition cells_read (c : Calculation) : list pyval :=
  [ PStr (__name__ (operation c));
    PInt (Z_of_Decimal (num1 c));
    PInt (Z_of_Decimal (num2 c)) ].

Definition history_columns : list string :=
  ["fld_Operation"; "fld_Operand1"; "fld_Operand2"].



(** A finite Decimal: neither an infinity nor a NaN. *)
Definition finite (d : Decimal) : Prop :=
  match d with
  | PyDecimal.Finite _ _ _ => True
  | _ => False
  end.

(** What the arithmetic of Decimal raises under the default context. *)
Definition decimal_signal (e : exn) : Prop :=
  exn_cls e = InvalidOperation \/ exn_cls e = Overflow.

(** The error [division] raises itself. *)
Definition cannot_divide_by_zero : exn :=
  mk_exn ZeroDivisionError "Cannot divide by zero.".

(** The operation behind each name of [calc_utils.perform_operation]. *)
Definition facade_operation : dict function :=
  [ ("add", AO.addition);
    ("subtract", AO.subtraction);
    ("multiply", AO.multiplication);
    ("divide", AO.division) ].

(** The records and messages of [calc_utils.perform_operation]. *)
Definition attempting_info (num1 num2 : Decimal) (operation_name : string)
  : log_record :=
  mk_log INFO
    ("Attempting to perform operation: " ++ operation_name
     ++ " with operands " ++ PyDecimal.str num1 ++ " and "
     ++ PyDecimal.str num2).

Definition result_message (num1 num2 : Decimal) (operation_name : string)
  (v : pyval) : string :=
  "The result of " ++ PyDecimal.str num1 ++ " " ++ operation_name ++ " "
  ++ PyDecimal.str num2 ++ " is equal to " ++ format_value v.

(** What [perform_operation] answers and logs for the outcome of the
    computation. *)
Definition answer (num1 num2 : Decimal) (operation_name : string)
  (outcome : result pyval) : string * log_record :=
  match outcome with
  | Ok v =>
      (result_message num1 num2 operation_name v,
       mk_log INFO
         ("Operation " ++ operation_name
          ++ " completed successfully. Result: " ++ format_value v))
  | Raise e =>
      if isinstance e ZeroDivisionError then
        ("An error occurred: Cannot divide by zero",
         mk_log WARNING "Division by zero attempt.")
      else
        ("An unexpected error occurred: " ++ exn_str e,
         mk_log CRITICAL ("Unexpected error in operation." ++ LF))
  end.




(** A word is a text that is not empty and holds no white space; a blank
    holds nothing else; a gap is a blank that is not empty. *)
Definition word (s : string) : Prop :=
  s <> "" /\
  forallb (fun a => negb (PyDecimal.is_space a)) (list_ascii_of_string s)
  = true.

Definition blank (s : string) : Prop :=
  forallb PyDecimal.is_space (list_ascii_of_string s) = true.



(** The lines typed before the first [exit], in any capitals, and the
    lines that follow it, if there is one. *)
Definition is_exit (line : string) : bool := String.eqb (str_lower line) "exit".








(** A calculation the listing of the history menu can show: it computes,
    or it fails with a ZeroDivisionError. *)
Definition listable (c : Calculation) : Prop :=
  match compute c with
  | Ok _ => True
  | Raise e => isinstance e ZeroDivisionError = true
  end.

(** The line of the listing for the calculation at position [idx], and the
    lines for a history whose first position is [idx]. *)
Definition listing_line (idx : Z) (c : Calculation) : string :=
  match compute c with
  | Ok v =>
      str_int idx ++ ". " ++ __repr__ c ++ " results in " ++ format_value v
  | Raise _ => str_int idx ++ ". " ++ __repr__ c ++ " is undefined"
  end.

Fixpoint listing (idx : Z) (h : list Calculation) : list string :=
  match h with
  | [] => []
  | c :: rest => listing_line idx c :: listing (idx + 1) rest
  end.

(** The state after [print] has written the lines. *)
Definition printed (lines : list string) (w : world) : world :=
  fold_left (fun w line => add_stdout line w) lines w.

(** What the history menu prints for the option [2]. *)
Definition all_calculations (h : list Calculation) : list string :=
  match h with
  | [] => ["No calculations in history."]
  | _ :: _ => (LF ++ "All Calculations:") :: listing 1 h
  end.




(** The menu of [HistoryCommand.execute] and its answer to a choice that
    is none of its options. *)
Definition history_menu : list string :=
  [ LF ++ "--- History Menu ---";
    "1. Retrieve the most recent calculation";
    "2. Retrieve all calculations";
    "3. Clear calculation history";
    "4. Save calculation history to CSV";
    "5. Load calculation history from CSV";
    "6. Delete a calculation from history";
    LF ++ "Type 'exit' to return to the main menu." ].

Definition invalid_choice_message : string :=
  "Invalid choice. Select a valid option or type 'exit' to return to main menu.".

(** A line typed at the history menu that is neither [exit] nor one of
    the six options. *)
Definition no_option (choice : string) : Prop :=
  is_exit choice = false /\ ~ In choice ["1"; "2"; "3"; "4"; "5"; "6"].

(** A process that asked for the product of 1E+999999 and 10, which
    overflows. *)
Definition after_overflow : world :=
  exec (Calculator.multiply (PyDecimal.Finite false 1 999999) (D 10))
    initial_world.

(** An interactive computation gives back no more lines than it was
    given. *)
Definition reads_forward {A} (m : IO A) : Prop :=
  forall (stdin : list string) (w : world),
    (List.length (snd (fst (m stdin w))) <= List.length stdin)%nat.

(** What the option [1] of the history menu prints for a calculation. *)
Definition most_recent_line (c : Calculation) : string :=
  match compute c with
  | Ok v => __repr__ c ++ " results in " ++ format_value v
  | Raise e =>
      if isinstance e ZeroDivisionError then __repr__ c ++ " is undefined."
      else "Error occured: " ++ exn_str e
  end.

(** The two operands [load_history_from_csv] converts for a row. *)
Definition operand (cols : list string) (row : list pyval) (label : string)
  : result Decimal :=
  a <~ getitem cols row label ;; Decimal_of a.


(** A process whose history is [[5 + 3; 20 / 4]] and whose history file
    has the header the file format is described with, and one whose file
    has a text where a number should be. *)
Definition with_other_header : world :=
  write_file default_path
    ("operation,operand1,operand2" ++ LF ++ "addition,1,2" ++ LF)
    two_entries.

Definition with_bad_operand : world :=
  write_file default_path
    ("fld_Operation,fld_Operand1,fld_Operand2" ++ LF
     ++ "addition,1,2" ++ LF ++ "division,x,4" ++ LF)
    two_entries.

(** The error of [cmd_name, *args = cmd_input.split()] on a line without
    a word. *)
Definition nothing_to_unpack : exn :=
  mk_exn ValueError "not enough values to unpack (expected at least 1, got 0)".


(* ===================================================================== *)
(** * Properties: the Calculator facade *)
(* ===================================================================== *)

Local Open Scope list_scope.
Unset Implicit Arguments.

(** C1, counterexample: started in a fresh process the scenario leaves three
    entries in the history, not two, because [_calculate_and_record] appends
    the calculation before it computes it. *)
Lemma scenario_counterexample : ~ scenario_as_stated initial_world.
Proof.
  intros (_ & _ & _ & Hlen & _).
  vm_compute in Hlen. discriminate Hlen.
Qed.

(** C1 (amended): from an empty history, add(5,3) returns 8, divide(20,4)
    returns 5, divide(1,0) raises ZeroDivisionError, and afterwards the
    history holds all three calculations in call order, the failed
    divide(1,0) included; the latest entry is that divide(1,0) entry, whose
    computation raises again. *)
Theorem scenario_records_every_call (w0 : world) :
  _history w0 = [] ->
  eval (Calculator.add (D 5) (D 3)) w0 = Ok (PDecimal (D 8)) /\
  eval (Calculator.divide (D 20) (D 4)) (after_add w0) = Ok (PDecimal (D 5)) /\
  eval (Calculator.divide (D 1) (D 0)) (after_divide w0)
  = Raise (mk_exn ZeroDivisionError "Cannot divide by zero.") /\
  _history (after_divide_by_zero w0)
  = [ mk_Calculation (D 5) (D 3) AO.addition;
      mk_Calculation (D 20) (D 4) AO.division;
      mk_Calculation (D 1) (D 0) AO.division ] /\
  List.length (_history (after_divide_by_zero w0)) = 3%nat /\
  eval get_latest_history (after_divide_by_zero w0)
  = Ok (Some (mk_Calculation (D 1) (D 0) AO.division)) /\
  compute (mk_Calculation (D 1) (D 0) AO.division)
  = Raise (mk_exn ZeroDivisionError "Cannot divide by zero.").
Proof.
  intros Hempty.
  destruct w0 as [h fs env lg out]. cbn [_history] in Hempty. subst h.
  repeat split; reflexivity.
Qed.

Lemma scenario_records_every_call_witness :
  _history initial_world = [] /\
  List.length (_history (after_divide_by_zero initial_world)) = 3%nat.
Proof.
  split; [reflexivity |].
  apply (scenario_records_every_call initial_world). reflexivity.
Defined.

(* ===================================================================== *)
(** * Properties: command dispatch *)
(* ===================================================================== *)


(** What is not an instance of Exception leaves [execute_command] as the
    command raised it, with the state the command reached. *)
Lemma execute_command_propagates (self : CommandHandler) (cmd_name : string)
  (c : Command) (args : list string) (w w' : world) (e : exn) :
  dict_get cmd_name (commands self) = Some c ->
  execute c args w = (Raise e, w') ->
  isinstance e Exception = false ->
  execute_command self cmd_name args w = (Raise e, w').
Proof.
  intros Hget Hrun Hcls. unfold execute_command, try_except.
  rewrite Hget, Hrun, Hcls. reflexivity.
Qed.

(** A command that returns normally is dispatched transparently. *)
Lemma execute_command_returns (self : CommandHandler) (cmd_name : string)
  (c : Command) (args : list string) (w w' : world) :
  dict_get cmd_name (commands self) = Some c ->
  execute c args w = (Ok tt, w') ->
  execute_command self cmd_name args w = (Ok tt, w').
Proof.
  intros Hget Hrun. unfold execute_command, try_except.
  rewrite Hget, Hrun. reflexivity.
Qed.



(* ===================================================================== *)
(** * Properties: the command registry *)
(* ===================================================================== *)

Section DictFacts.

Variable V : Type.
Implicit Types (d : dict V) (k : string) (v : V).

Lemma dict_contains_keys d k :
  dict_contains k d = existsb (String.eqb k) (dict_keys d).
Proof.
  unfold dict_contains. induction d as [| [k' v'] d IH]; cbn; [reflexivity |].
  destruct (String.eqb k k'); [reflexivity | exact IH].
Qed.

Lemma dict_get_set d k k' v :
  dict_get k' (dict_set k v d)
  = if String.eqb k' k then Some v else dict_get k' d.
Proof.
  induction d as [| [k0 v0] d IH]; cbn.
  - destruct (String.eqb k' k); reflexivity.
  - destruct (String.eqb k k0) eqn:Hk; cbn.
    + apply String.eqb_eq in Hk. subst k0.
      destruct (String.eqb k' k); reflexivity.
    + destruct (String.eqb k' k0) eqn:Hk'.
      * apply String.eqb_eq in Hk'. subst k0.
        rewrite String.eqb_sym, Hk. reflexivity.
      * exact IH.
Qed.

(** Assigning to a key that is present replaces the value where it is. *)
Lemma dict_set_present d k v0 v :
  dict_get k d = Some v0 ->
  exists pre post,
    d = pre ++ (k, v0) :: post /\
    dict_get k pre = None /\
    dict_set k v d = pre ++ (k, v) :: post.
Proof.
  induction d as [| [k0 v1] d IH]; cbn; [discriminate |].
  destruct (String.eqb k k0) eqn:Hk.
  - intros [= ->]. apply String.eqb_eq in Hk. subst k0.
    exists [], d. repeat split.
  - intros Hget. destruct (IH Hget) as (pre & post & -> & Hpre & Hset).
    exists ((k0, v1) :: pre), post. cbn. rewrite Hk, Hset. repeat split.
    exact Hpre.
Qed.

(** Assigning to a key that is absent appends the item. *)
Lemma dict_set_absent d k v :
  dict_get k d = None -> dict_set k v d = d ++ [(k, v)].
Proof.
  induction d as [| [k0 v0] d IH]; cbn; [reflexivity |].
  destruct (String.eqb k k0); [discriminate |].
  intros Hget. now rewrite IH.
Qed.

Lemma dict_keys_set d k v :
  dict_keys (dict_set k v d)
  = if dict_contains k d then dict_keys d else dict_keys d ++ [k].
Proof.
  unfold dict_contains. destruct (dict_get k d) as [v0 |] eqn:Hget.
  - destruct (dict_set_present d k v0 v Hget) as (pre & post & -> & _ & ->).
    unfold dict_keys. now rewrite !map_app.
  - rewrite (dict_set_absent d k v Hget). unfold dict_keys.
    now rewrite map_app.
Qed.

Lemma dict_get_None_keys d k : dict_get k d = None -> ~ In k (dict_keys d).
Proof.
  induction d as [| [k0 v0] d IH]; cbn; [tauto |].
  destruct (String.eqb k k0) eqn:Hk; [discriminate |].
  intros Hget [-> | Hin]; [| now apply IH].
  now rewrite String.eqb_refl in Hk.
Qed.

Lemma dict_get_In d k v :
  NoDup (dict_keys d) -> In (k, v) d -> dict_get k d = Some v.
Proof.
  induction d as [| [k0 v0] d IH]; cbn; [tauto |].
  intros Hnd [[= -> ->] | Hin].
  - now rewrite String.eqb_refl.
  - inversion Hnd as [| ? ? Hnotin Hnd']; subst.
    destruct (String.eqb k k0) eqn:Hk.
    + apply String.eqb_eq in Hk. subst k0. exfalso. apply Hnotin.
      change k with (fst (k, v)). now apply in_map.
    + now apply IH.
Qed.

Lemma dict_set_NoDup d k v :
  NoDup (dict_keys d) -> NoDup (dict_keys (dict_set k v d)).
Proof.
  intros Hnd. rewrite dict_keys_set. unfold dict_contains.
  destruct (dict_get k d) eqn:Hget; [exact Hnd |].
  apply NoDup_app; [exact Hnd | repeat constructor; cbn; tauto |].
  intros x Hx [<- | []]. now apply (dict_get_None_keys d k Hget).
Qed.

End DictFacts.

(** [register_command] never raises: it returns the handler with the
    command stored under its name, after logging. *)
Lemma register_command_run (self : CommandHandler) (c : Command) (w : world) :
  register_command self c w
  = (Ok (mk_CommandHandler (dict_set (name c) c (commands self))),
     add_log (registered_info c)
       (if dict_contains (name c) (commands self)
        then add_log (overwrite_warning c) w else w)).
Proof.
  unfold register_command, bind.
  destruct (dict_contains (name c) (commands self)); reflexivity.
Qed.



(** ** The order of [get_commands] *)

Lemma find_append {A} (f : A -> bool) (l l' : list A) :
  find f (l ++ l')
  = match find f l with Some x => Some x | None => find f l' end.
Proof.
  induction l as [| x l IH]; cbn; [reflexivity |].
  destruct (f x); [reflexivity | exact IH].
Qed.

Lemma registered_cons (d : dict Command) (c : Command) (cs : list Command) :
  registered d (c :: cs) = registered (dict_set (name c) c d) cs.
Proof. reflexivity. Qed.

Lemma register_all_run (cs : list Command) :
  forall (self : CommandHandler) (w : world),
    eval (register_all self cs) w
    = Ok (mk_CommandHandler (registered (commands self) cs)).
Proof.
  induction cs as [| c cs IH]; intros self w.
  - now destruct self.
  - cbn [register_all]. unfold eval, bind in *.
    rewrite register_command_run, registered_cons. apply IH.
Qed.

Lemma registered_keys (cs : list Command) :
  forall d : dict Command,
    dict_keys (registered d cs)
    = dict_keys d ++ first_seen (dict_keys d) (map name cs).
Proof.
  induction cs as [| c cs IH]; intros d.
  - cbn. now rewrite app_nil_r.
  - rewrite registered_cons, IH, dict_keys_set, dict_contains_keys.
    cbn [map first_seen].
    destruct (existsb (String.eqb (name c)) (dict_keys d)); [reflexivity |].
    now rewrite <- app_assoc.
Qed.

Lemma registered_get (n : string) (cs : list Command) :
  forall d : dict Command,
    dict_get n (registered d cs)
    = match last_registered n cs with
      | Some c => Some c
      | None => dict_get n d
      end.
Proof.
  unfold last_registered.
  induction cs as [| c cs IH]; intros d; [reflexivity |].
  rewrite registered_cons, IH, dict_get_set. cbn [rev]. rewrite find_append.
  destruct (find _ (rev cs)); [reflexivity |]. cbn.
  destruct (String.eqb n (name c)); reflexivity.
Qed.

Lemma registered_NoDup (cs : list Command) :
  forall d : dict Command,
    NoDup (dict_keys d) -> NoDup (dict_keys (registered d cs)).
Proof.
  induction cs as [| c cs IH]; intros d Hnd; [exact Hnd |].
  rewrite registered_cons. apply IH. now apply dict_set_NoDup.
Qed.

Lemma dict_set_keyed (d : dict Command) (c : Command) :
  keyed_by_name d -> keyed_by_name (dict_set (name c) c d).
Proof.
  unfold keyed_by_name.
  induction d as [| [k0 c0] d IH]; cbn; intros Hd k c' Hin.
  - destruct Hin as [[= <- <-] | []]. reflexivity.
  - destruct (String.eqb (name c) k0) eqn:Hk.
    + destruct Hin as [[= <- <-] | Hin].
      * now apply String.eqb_eq in Hk.
      * apply Hd. now right.
    + destruct Hin as [[= <- <-] | Hin].
      * apply Hd. now left.
      * apply IH; [| exact Hin]. intros k1 c1 H1. apply Hd. now right.
Qed.

Lemma registered_keyed (cs : list Command) :
  forall d : dict Command, keyed_by_name d -> keyed_by_name (registered d cs).
Proof.
  induction cs as [| c cs IH]; intros d Hd; [exact Hd |].
  rewrite registered_cons. apply IH. now apply dict_set_keyed.
Qed.

Lemma Forall2_keys_entries (P : string -> string * string -> Prop)
  (d : dict Command) :
  (forall k c, In (k, c) d -> P k (entry c)) ->
  Forall2 P (dict_keys d) (map entry (dict_values d)).
Proof.
  induction d as [| [k c] d IH]; cbn; intros H; constructor.
  - apply H. now left.
  - apply IH. intros k' c' Hin. apply H. now right.
Qed.

Lemma Forall2_map_fst {A B} (P : A -> A * B -> Prop) (ks : list A)
  (ps : list (A * B)) :
  Forall2 P ks ps -> (forall n p, P n p -> fst p = n) -> map fst ps = ks.
Proof.
  intros Hall HP. induction Hall as [| n p ks ps Hnp _ IH]; cbn;
    [reflexivity |].
  now rewrite (HP n p Hnp), IH.
Qed.

(** C10: after any sequence of [register_command] calls on a fresh handler,
    [get_commands] lists one pair per distinct name, in the order in which
    the names were first registered; the pair of a name carries the
    description of the command registered last under it.  Registering a
    name again therefore changes its pair where it stands and does not move
    it to the end. *)
Theorem get_commands_in_first_registration_order (cs : list Command)
  (w : world) :
  exists self : CommandHandler,
    eval (register_all CommandHandler_init cs) w = Ok self /\
    map fst (get_commands self) = first_seen [] (map name cs) /\
    Forall2
      (fun n pair =>
         exists c, last_registered n cs = Some c /\ pair = (n, description c))
      (first_seen [] (map name cs)) (get_commands self).
Proof.
  exists (mk_CommandHandler (registered [] cs)).
  split; [apply register_all_run |].
  assert (Hkeys : dict_keys (registered [] cs) = first_seen [] (map name cs))
    by apply (registered_keys cs []).
  assert (Hkeyed : keyed_by_name (registered [] cs)).
  { apply registered_keyed. intros k c []. }
  assert (Hnd : NoDup (dict_keys (registered [] cs))).
  { apply registered_NoDup. constructor. }
  assert (Hall :
    Forall2
      (fun n pair =>
         exists c, last_registered n cs = Some c /\ pair = (n, description c))
      (dict_keys (registered [] cs))
      (map entry (dict_values (registered [] cs)))).
  { apply Forall2_keys_entries. intros k c Hin.
    pose proof (dict_get_In _ _ k c Hnd Hin) as Hget.
    rewrite registered_get in Hget.
    destruct (last_registered k cs) as [c' |]; [| discriminate].
    injection Hget as ->. exists c. split; [reflexivity |].
    unfold entry. now rewrite (Hkeyed _ _ Hin). }
  change (get_commands (mk_CommandHandler (registered [] cs)))
    with (map entry (dict_values (registered [] cs))).
  rewrite <- Hkeys. split; [| exact Hall].
  apply (Forall2_map_fst _ _ _ Hall).
  intros n pair (c & _ & ->). reflexivity.
Qed.

(* ===================================================================== *)
(** * Properties: the calculation history *)
(* ===================================================================== *)

Section HistoryFacts.

Context {csv : CsvLayer}.

(** ** How the three file operations run *)


Lemma save_nonempty (w : world) :
  _history w <> [] ->
  save_history_to_csv w
  = (Ok tt,
     add_log (saved_info w)
       (write_file (backing_file w) (to_csv (history_frame (_history w))) w)).
Proof.
  intros Hh. destruct w as [h fs env lg out]. cbn [_history] in Hh.
  destruct h as [| c h]; [contradiction | reflexivity].
Qed.

Lemma load_run (w : world) :
  load_history_from_csv w
  = match read_history w with
    | Ok h => (Ok tt, add_log loaded_info (set_history h w))
    | Raise e => load_handler e w
    end.
Proof.
  unfold load_history_from_csv, read_history, try_except, bind, os_getenv,
    gets.
  change (os_path_join _ _) with (backing_file w).
  unfold pd_read_csv, lift.
  destruct (files w (backing_file w)) as [text |]; [| reflexivity].
  unfold bind_result.
  destruct (read_csv text) as [df | e];
    [| unfold load_handler; now repeat destruct (isinstance e _)].
  destruct (comprehension (columns df) (rows df)) as [h | e];
    [reflexivity | unfold load_handler; now repeat destruct (isinstance e _)].
Qed.


(** ** Saving *)


End HistoryFacts.



Section LoadFacts.

Context {csv : CsvLayer}.

(** ** Loading *)


(** ** The rows that are loaded *)

Lemma key_in_get (op : pyval) :
  key_in op operation_mapping = true ->
  exists s f, op = PStr s /\ dict_get s operation_mapping = Some f
              /\ get_default op lambda_None operation_mapping = f.
Proof.
  destruct op as [| b | z | f | s | d]; cbn [key_in get_default];
    try discriminate.
  unfold dict_contains. intros H.
  destruct (dict_get s operation_mapping) as [f |] eqn:Hget;
    [| discriminate].
  exists s, f. now rewrite Hget.
Qed.

(** A row with an operation name outside the table is passed over, whatever
    its other cells hold. *)
Lemma comprehension_skips (cols : list string) (row : list pyval)
  (rs : list (list pyval)) (op : pyval) :
  getitem cols row "fld_Operation" = Ok op ->
  key_in op operation_mapping = false ->
  comprehension cols (row :: rs) = comprehension cols rs.
Proof.
  intros Hop Hkey. cbn [comprehension]. rewrite Hop. cbn [bind_result].
  now rewrite Hkey.
Qed.

Lemma comprehension_recognized (cols : list string) :
  forall (rs : list (list pyval)) (h : list Calculation),
    comprehension cols rs = Ok h ->
    Forall2 (row_restores cols) (filter (recognized_row cols) rs) h.
Proof.
  induction rs as [| row rs IH]; intros h Hc.
  - cbn in Hc. injection Hc as <-. constructor.
  - cbn [comprehension] in Hc. cbn [filter]. unfold recognized_row at 1.
    destruct (getitem cols row "fld_Operation") as [op | e] eqn:Hop;
      cbn [bind_result] in Hc; [| discriminate Hc].
    destruct (key_in op operation_mapping) eqn:Hkey; [| now apply IH].
    destruct (key_in_get op Hkey) as (s & f & -> & Hget & Hdef).
    destruct (getitem cols row "fld_Operand1") as [a |] eqn:Ha;
      cbn [bind_result] in Hc; [| discriminate Hc].
    destruct (Decimal_of a) as [d1 |] eqn:Hd1;
      cbn [bind_result] in Hc; [| discriminate Hc].
    destruct (getitem cols row "fld_Operand2") as [b |] eqn:Hb;
      cbn [bind_result] in Hc; [| discriminate Hc].
    destruct (Decimal_of b) as [d2 |] eqn:Hd2;
      cbn [bind_result] in Hc; [| discriminate Hc].
    destruct (comprehension cols rs) as [tl |];
      cbn [bind_result] in Hc; [| discriminate Hc].
    injection Hc as <-. constructor; [| now apply IH].
    exists s. cbn [num1 num2 operation]. rewrite Ha, Hb.
    cbn [bind_result]. repeat split; try assumption.
    rewrite Hget. f_equal. rewrite <- Hdef. reflexivity.
Qed.

(** C8: when [load_history_from_csv] reads the file and converts its rows
    without failure, the history becomes exactly the calculations built, in
    file order, from the rows whose operation name is one of addition,
    subtraction, multiplication and division.  A row with another name is
    left out and nothing is logged about it: the only record logged is the
    one of a successful load.  The history held before the call does not
    enter the result. *)
Theorem load_skips_unrecognized_and_replaces (w : world) (text : string)
  (df : DataFrame) (h : list Calculation) :
  files w (backing_file w) = Some text ->
  read_csv text = Ok df ->
  comprehension (columns df) (rows df) = Ok h ->
  let w' := exec load_history_from_csv w in
  eval load_history_from_csv w = Ok tt /\
  _history w' = h /\
  Forall2 (row_restores (columns df))
    (filter (recognized_row (columns df)) (rows df)) h /\
  (forall row : list pyval,
      In row (rows df) ->
      recognized_row (columns df) row = false ->
      ~ In row (filter (recognized_row (columns df)) (rows df))) /\
  log w' = log w ++ [loaded_info].
Proof.
  intros Hfile Hread Hcomp w'.
  assert (Hrh : read_history w = Ok h).
  { unfold read_history. rewrite Hfile, Hread. exact Hcomp. }
  unfold w', exec, eval. rewrite load_run, Hrh. cbn.
  repeat split.
  - now apply comprehension_recognized.
  - intros row _ Hrow Hin. apply filter_In in Hin. destruct Hin as [_ Hin].
    congruence.
Qed.

End LoadFacts.


Lemma load_skips_unrecognized_and_replaces_witness :
  let df :=
    mk_DataFrame ["fld_Operation"; "fld_Operand1"; "fld_Operand2"]
      [ [PStr "addition"; PInt 1; PStr "2"];
        [PStr "modulo"; PInt 7; PStr "x"];
        [PStr "division"; PInt 8; PStr "0"] ] in
  exists text : string,
    files with_foreign_row (backing_file with_foreign_row) = Some text /\
    read_csv (CsvLayer := plain_csv) text = Ok df /\
    _history (exec (load_history_from_csv (csv := plain_csv))
                with_foreign_row)
    = [ mk_Calculation (D 1) (D 2) AO.addition;
        mk_Calculation (D 8) (D 0) AO.division ].
Proof.
  intros df. eexists.
  split; [reflexivity |].
  assert (Hread :
    read_csv (CsvLayer := plain_csv)
      ("fld_Operation,fld_Operand1,fld_Operand2" ++ PlainCsv.nl
       ++ "addition,1,2" ++ PlainCsv.nl
       ++ "modulo,7,x" ++ PlainCsv.nl
       ++ "division,8,0" ++ PlainCsv.nl)%string = Ok df)
    by (vm_compute; reflexivity).
  split; [exact Hread |].
  apply (@load_skips_unrecognized_and_replaces plain_csv with_foreign_row
           _ df _ eq_refl Hread eq_refl).
Defined.

Section DeleteFacts.

Context {csv : CsvLayer}.

(** ** Deleting *)

Lemma list_del_length {A} (i : nat) (l : list A) :
  (i < List.length l)%nat ->
  List.length (list_del i l) = (List.length l - 1)%nat.
Proof.
  intros Hi. unfold list_del.
  rewrite length_app, length_firstn, length_skipn. lia.
Qed.




Lemma delete_in_range (w : world) (index : Z) :
  0 <= index < Z.of_nat (List.length (_history w)) ->
  delete_calculation_by_index index w
  = save_history_to_csv
      (set_history (list_del (Z.to_nat index) (_history w)) w).
Proof.
  intros Hi. unfold delete_calculation_by_index, bind, gets.
  replace (0 <=? index) with true by (symmetry; apply Z.leb_le; lia).
  replace (index <? Z.of_nat (List.length (_history w))) with true
    by (symmetry; apply Z.ltb_lt; lia).
  reflexivity.
Qed.



(** While something is left after the deletion, the history file is
    rewritten with what is left. *)
Lemma delete_writes_through (w : world) (index : Z) :
  0 <= index < Z.of_nat (List.length (_history w)) ->
  (2 <= List.length (_history w))%nat ->
  files (exec (delete_calculation_by_index index) w) (backing_file w)
  = Some (to_csv
            (history_frame (list_del (Z.to_nat index) (_history w)))).
Proof.
  intros Hi Hlen. unfold exec. rewrite (delete_in_range w index Hi).
  set (h' := list_del (Z.to_nat index) (_history w)).
  assert (Hne : _history (set_history h' w) <> []).
  { cbn [_history set_history]. intros Hnil.
    assert (Hl : List.length h' = (List.length (_history w) - 1)%nat)
      by (apply list_del_length; lia).
    rewrite Hnil in Hl. cbn in Hl. lia. }
  rewrite (save_nonempty _ Hne). cbn [snd].
  unfold add_log, write_file. cbn [files _history set_history].
  change (backing_file (set_history h' w)) with (backing_file w).
  now rewrite String.eqb_refl.
Qed.

End DeleteFacts.


(** C6, at the failing input: a process computed 1 + 2 and saved its
    history; deleting index 0, the only entry, succeeds and empties the
    history, but [save_history_to_csv] then prints that there is nothing to
    save and returns before it writes: the history file is the one saved
    before and still holds the deleted calculation, which the next
    [load_history_from_csv] brings back. *)
Theorem deleting_the_only_entry_keeps_the_saved_file :
  let delete := delete_calculation_by_index (csv := plain_csv) 0 in
  let w' := exec delete saved_single in
  _history saved_single = [mk_Calculation (D 1) (D 2) AO.addition] /\
  eval delete saved_single = Ok tt /\
  _history w' = [] /\
  stdout w' = ["No calculations in history to save."%string] /\
  files w' default_path = files saved_single default_path /\
  files w' default_path
  = Some ("fld_Operation,fld_Operand1,fld_Operand2" ++ PlainCsv.nl
          ++ "addition,1,2" ++ PlainCsv.nl)%string /\
  files w' default_path
  <> Some (to_csv (CsvLayer := plain_csv) (history_frame (_history w'))) /\
  _history (exec (load_history_from_csv (csv := plain_csv)) w')
  = [mk_Calculation (D 1) (D 2) AO.addition].
Proof.
  intros delete w'. unfold w', delete.
  split; [reflexivity |].
  split; [reflexivity |].
  split; [reflexivity |].
  split; [reflexivity |].
  split; [reflexivity |].
  split; [vm_compute; reflexivity |].
  split; [vm_compute; discriminate |].
  reflexivity.
Qed.

Section RoundTrip.

Context {csv : CsvLayer}.

(** ** Saving, clearing and loading *)

Lemma recognized_name (c : Calculation) :
  recognized c ->
  key_in (PStr (__name__ (operation c))) operation_mapping = true /\
  get_default (PStr (__name__ (operation c))) lambda_None operation_mapping
  = operation c.
Proof.
  unfold recognized. cbn [In].
  intros [<- | [<- | [<- | [<- | []]]]]; split; reflexivity.
Qed.

(** Rows that give a history of recognized calculations back are loaded as
    that history. *)
Lemma comprehension_gives_back (cols : list string) :
  forall (rs : list (list pyval)) (h : list Calculation),
    Forall2 (row_gives_back cols) rs h ->
    Forall recognized h ->
    comprehension cols rs = Ok h.
Proof.
  intros rs h Hall. induction Hall as [| row c rs h Hrow _ IH]; intros Hrec.
  - reflexivity.
  - inversion Hrec as [| ? ? Hc Hrec']; subst.
    destruct Hrow as (Hop & H1 & H2).
    destruct (recognized_name c Hc) as [Hkey Hdef].
    cbn [comprehension]. rewrite Hop. cbn [bind_result]. rewrite Hkey.
    destruct (getitem cols row "fld_Operand1") as [a |];
      cbn [bind_result] in H1; [| discriminate H1].
    cbn [bind_result]. rewrite H1. cbn [bind_result].
    destruct (getitem cols row "fld_Operand2") as [b |];
      cbn [bind_result] in H2; [| discriminate H2].
    cbn [bind_result]. rewrite H2. cbn [bind_result].
    rewrite (IH Hrec'). cbn [bind_result]. rewrite Hdef.
    now destruct c.
Qed.


(** The state after save(); clear(); load() on a history that the CSV
    layer gives back. *)
Lemma save_clear_load_run (w : world) :
  _history w <> [] ->
  Forall recognized (_history w) ->
  reads_back csv (_history w) ->
  save_clear_load w
  = (Ok tt,
     add_log loaded_info
       (set_history (_history w)
          (set_history []
             (add_log (saved_info w)
                (write_file (backing_file w)
                   (to_csv (history_frame (_history w))) w))))).
Proof.
  intros Hne Hrec (df & Hread & Hrows).
  unfold save_clear_load, bind. rewrite (save_nonempty w Hne).
  unfold clear_history, modify. rewrite load_run.
  unfold read_history.
  change (backing_file (set_history [] _)) with (backing_file w).
  unfold set_history, add_log, write_file. cbn [files].
  rewrite String.eqb_refl, Hread. cbn [bind_result].
  rewrite (comprehension_gives_back _ _ _ Hrows Hrec). reflexivity.
Qed.


End RoundTrip.



(* ===================================================================== *)
(** * Properties: integer operands through the reference CSV layer *)
(* ===================================================================== *)

(** A history of integer operands satisfies the condition of the round
    trip under [plain_csv]: an integer is written as its digits and read
    back as an integer.  *)

(** ** Digits *)

Lemma chars_append (a b : string) :
  list_ascii_of_string (a ++ b)
  = list_ascii_of_string a ++ list_ascii_of_string b.
Proof. induction a as [| x a IH]; cbn; [reflexivity | now rewrite IH]. Qed.

Lemma append_empty (a : string) : (a ++ "")%string = a.
Proof. induction a as [| x a IH]; cbn; [reflexivity | now rewrite IH]. Qed.

Lemma uint_digits (d : Decimal.uint) :
  forallb PyDecimal.is_digit
    (list_ascii_of_string (NilEmpty.string_of_uint d)) = true.
Proof.
  induction d; cbn [NilEmpty.string_of_uint list_ascii_of_string forallb];
    [reflexivity | rewrite IHd; reflexivity ..].
Qed.

Lemma span_all_digits (l : list ascii) :
  forallb PyDecimal.is_digit l = true -> PyDecimal.span_digits l = (l, []).
Proof.
  induction l as [| a l IH]; cbn [forallb PyDecimal.span_digits];
    [reflexivity |].
  intros H. apply andb_prop in H. destruct H as [Ha Hl].
  now rewrite Ha, (IH Hl).
Qed.

Lemma fold_digits_acc (d : Decimal.uint) :
  forall acc : positive,
    fold_left PyDecimal.digit_step (list_ascii_of_string (NilEmpty.string_of_uint d))
      (Npos acc)
    = Npos (Pos.of_uint_acc d acc).
Proof.
  induction d; intros acc;
    cbn [NilEmpty.string_of_uint list_ascii_of_string fold_left
         Pos.of_uint_acc];
    [reflexivity | rewrite <- IHd; f_equal; unfold PyDecimal.digit_step;
                   vm_compute N_of_ascii; lia ..].
Qed.

Lemma fold_digits (d : Decimal.uint) :
  fold_left PyDecimal.digit_step (list_ascii_of_string (NilEmpty.string_of_uint d)) 0%N
  = Pos.of_uint d.
Proof.
  induction d;
    cbn [NilEmpty.string_of_uint list_ascii_of_string fold_left Pos.of_uint];
    [reflexivity | exact IHd | rewrite <- fold_digits_acc; reflexivity ..].
Qed.

Lemma N_of_digits_of (n : N) :
  PyDecimal.N_of_digits (list_ascii_of_string (PyDecimal.digits_of n)) = n.
Proof.
  unfold PyDecimal.N_of_digits, PyDecimal.digits_of.
  rewrite fold_digits. apply DecimalN.Unsigned.of_to.
Qed.

Lemma digits_of_nonempty (n : N) :
  exists a l, list_ascii_of_string (PyDecimal.digits_of n) = a :: l
              /\ PyDecimal.is_digit a = true.
Proof.
  pose proof (uint_digits (N.to_uint n)) as Hd.
  pose proof (N_of_digits_of n) as Hn.
  unfold PyDecimal.digits_of in *.
  destruct (list_ascii_of_string (NilEmpty.string_of_uint (N.to_uint n)))
    as [| a l] eqn:Hl.
  - assert (Hs : NilEmpty.string_of_uint (N.to_uint n) = ""%string).
    { rewrite <- (string_of_list_ascii_of_string
                    (NilEmpty.string_of_uint (N.to_uint n))), Hl.
      reflexivity. }
    assert (Hu : N.to_uint n = Decimal.Nil).
    { destruct (N.to_uint n); cbn in Hs; try discriminate Hs. reflexivity. }
    cbn in Hn. subst n. discriminate Hu.
  - exists a, l. split; [reflexivity |].
    cbn [forallb] in Hd. now apply andb_prop in Hd.
Qed.

Lemma str_of_Z (z : Z) :
  PyDecimal.str (PyDecimal.of_Z z)
  = (PyDecimal.sign_str (z <? 0)%Z ++ PyDecimal.digits_of (Z.abs_N z))%string.
Proof.
  unfold PyDecimal.of_Z, PyDecimal.str.
  set (ds := PyDecimal.digits_of (Z.abs_N z)).
  assert (Hlen : 1 <= Z.of_nat (String.length ds)).
  { destruct (digits_of_nonempty (Z.abs_N z)) as (a & l & Hl & _).
    fold ds in Hl. destruct ds; [discriminate Hl | cbn; lia]. }
  set (len := Z.of_nat (String.length ds)) in *.
  change (0 <=? 0) with true. cbn [andb].
  replace (0 + len >? -6) with true by (symmetry; apply Z.gtb_lt; lia).
  replace (0 + len <=? 0) with false by (symmetry; apply Z.leb_gt; lia).
  replace (0 + len >=? len) with true by (symmetry; apply Z.geb_le; lia).
  replace (0 + len =? 0 + len) with true by (symmetry; apply Z.eqb_refl).
  replace (0 + len - len) with 0 by lia.
  cbn [PyDecimal.zeros Z.to_nat repeat string_of_list_ascii].
  now rewrite !append_empty.
Qed.

Lemma not_sign_of_digit (a : ascii) (l : list ascii) :
  PyDecimal.is_digit a = true -> PyDecimal.take_sign (a :: l) = (false, a :: l).
Proof.
  intros Ha. unfold PyDecimal.take_sign.
  destruct (Ascii.eqb a "-") eqn:H1.
  { apply Ascii.eqb_eq in H1. subst a. discriminate Ha. }
  destruct (Ascii.eqb a "+") eqn:H2.
  { apply Ascii.eqb_eq in H2. subst a. discriminate Ha. }
  destruct a as [[] [] [] [] [] [] [] []]; try reflexivity;
    discriminate.
Qed.

Lemma parse_int_str (z : Z) :
  int64 z -> PlainCsv.parse_int (PyDecimal.str (PyDecimal.of_Z z)) = Some z.
Proof.
  intros Hz. rewrite str_of_Z. unfold PlainCsv.parse_int.
  rewrite chars_append.
  destruct (digits_of_nonempty (Z.abs_N z)) as (a & l & Hl & Ha).
  pose proof (uint_digits (N.to_uint (Z.abs_N z))) as Hd.
  fold (PyDecimal.digits_of (Z.abs_N z)) in Hd.
  pose proof (N_of_digits_of (Z.abs_N z)) as Hn.
  assert (Hrange :
    (- 2 ^ 63 <=? z) && (z <? 2 ^ 63) = true).
  { unfold int64 in Hz. apply andb_true_intro.
    split; [apply Z.leb_le | apply Z.ltb_lt]; lia. }
  destruct (z <? 0) eqn:Hneg; cbn [PyDecimal.sign_str list_ascii_of_string app].
  - cbn [PyDecimal.take_sign]. rewrite (span_all_digits _ Hd), Hl.
    rewrite <- Hl, Hn. unfold PyDecimal.signed.
    apply Z.ltb_lt in Hneg.
    replace (- Z.of_N (Z.abs_N z)) with z by (rewrite N2Z.inj_abs_N; lia).
    now rewrite Hrange.
  - rewrite Hl, (not_sign_of_digit a l Ha), <- Hl.
    rewrite (span_all_digits _ Hd), Hl. rewrite <- Hl, Hn.
    unfold PyDecimal.signed. apply Z.ltb_ge in Hneg.
    replace (Z.of_N (Z.abs_N z)) with z by (rewrite N2Z.inj_abs_N; lia).
    now rewrite Hrange.
Qed.

(** ** Lines and cells *)

Lemma lacks_append (c : ascii) (a b : string) :
  lacks c a -> lacks c b -> lacks c (a ++ b)%string.
Proof.
  unfold lacks. intros Ha Hb. rewrite chars_append, forallb_app.
  now rewrite Ha, Hb.
Qed.

Lemma split_lacks (c : ascii) (s : string) :
  lacks c s -> PlainCsv.split_on c s = [s].
Proof.
  unfold lacks. induction s as [| a s IH];
    cbn [list_ascii_of_string forallb PlainCsv.split_on]; [reflexivity |].
  intros H. apply andb_prop in H. destruct H as [Ha Hs].
  apply negb_true_iff in Ha. now rewrite Ha, (IH Hs).
Qed.

Lemma split_append (c : ascii) (s t : string) :
  lacks c s ->
  PlainCsv.split_on c (s ++ String c t)%string = s :: PlainCsv.split_on c t.
Proof.
  unfold lacks. induction s as [| a s IH];
    cbn [list_ascii_of_string forallb PlainCsv.split_on String.append].
  - intros _. now rewrite Ascii.eqb_refl.
  - intros H. apply andb_prop in H. destruct H as [Ha Hs].
    apply negb_true_iff in Ha. now rewrite Ha, (IH Hs).
Qed.

Lemma lines_unlines (ls : list string) :
  Forall (fun l => lacks (ascii_of_nat 10) l /\ l <> ""%string) ls ->
  PlainCsv.lines (PlainCsv.unlines ls) = ls.
Proof.
  unfold PlainCsv.lines.
  induction 1 as [| l ls [Hl Hne] _ IH]; [reflexivity |].
  cbn [PlainCsv.unlines]. unfold PlainCsv.nl at 1.
  cbn [String.append]. rewrite (split_append _ l _ Hl). cbn [filter].
  destruct (String.eqb l "") eqn:He.
  - apply String.eqb_eq in He. contradiction.
  - cbn [negb]. now rewrite IH.
Qed.

Lemma split_three (a b c : string) :
  lacks "," a -> lacks "," b -> lacks "," c ->
  PlainCsv.split_on "," (PlainCsv.join "," [a; b; c]) = [a; b; c].
Proof.
  intros Ha Hb Hc. cbn [PlainCsv.join].
  change ("," ++ b ++ "," ++ c)%string with (String "," (b ++ String "," c)).
  rewrite (split_append _ a _ Ha), (split_append _ b _ Hb).
  now rewrite (split_lacks _ c Hc).
Qed.

Lemma digits_lack (c : ascii) (l : list ascii) :
  PyDecimal.is_digit c = false ->
  forallb PyDecimal.is_digit l = true ->
  forallb (fun a => negb (Ascii.eqb a c)) l = true.
Proof.
  intros Hc. induction l as [| a l IH]; cbn [forallb]; [reflexivity |].
  intros H. apply andb_prop in H. destruct H as [Ha Hl].
  rewrite (IH Hl), andb_true_r. apply negb_true_iff.
  destruct (Ascii.eqb a c) eqn:He; [| reflexivity].
  apply Ascii.eqb_eq in He. congruence.
Qed.

Lemma str_of_Z_lacks (c : ascii) (z : Z) :
  PyDecimal.is_digit c = false -> c <> "-"%char ->
  lacks c (PyDecimal.str (PyDecimal.of_Z z)).
Proof.
  intros Hc Hm. rewrite str_of_Z. apply lacks_append.
  - destruct (z <? 0); [| reflexivity].
    unfold lacks. cbn [PyDecimal.sign_str list_ascii_of_string forallb].
    rewrite andb_true_r. apply negb_true_iff.
    destruct (Ascii.eqb "-" c) eqn:He; [| reflexivity].
    apply Ascii.eqb_eq in He. now subst c.
  - unfold lacks. apply digits_lack; [exact Hc |]. apply uint_digits.
Qed.

(** ** Histories of integer operands *)

Lemma Z_of_Decimal_D (a : Z) : Z_of_Decimal (D a) = a.
Proof.
  unfold D, PyDecimal.of_Z, Z_of_Decimal, PyDecimal.signed.
  destruct (a <? 0) eqn:Ha; rewrite N2Z.inj_abs_N.
  - apply Z.ltb_lt in Ha. lia.
  - apply Z.ltb_ge in Ha. lia.
Qed.

Lemma name_facts (c : Calculation) :
  recognized c ->
  let n := __name__ (operation c) in
  lacks "," n /\ lacks (ascii_of_nat 10) n /\ n <> ""%string /\
  PlainCsv.parse_int n = None /\
  PlainCsv.is_na n || PlainCsv.is_some (PlainCsv.parse_float n) = false /\
  PlainCsv.parse_bool n = None /\
  PlainCsv.is_na n = false.
Proof.
  unfold recognized. cbn [In].
  intros [<- | [<- | [<- | [<- | []]]]]; cbn [__name__];
    repeat split; try reflexivity; discriminate.
Qed.

Lemma row_line_facts (c : Calculation) :
  integer_calculation c ->
  PlainCsv.split_on "," (row_line c) = texts_of c /\
  lacks (ascii_of_nat 10) (row_line c) /\
  row_line c <> ""%string.
Proof.
  intros (Hrec & a & b & Ha & Hb & H1 & H2).
  destruct (name_facts c Hrec) as (Hcomma & Hnl & Hne & _).
  unfold row_line, texts_of, cells_of.
  cbn [map PlainCsv.cell_text]. rewrite H1, H2. unfold D.
  split; [| split].
  - apply split_three; [exact Hcomma | |];
      apply str_of_Z_lacks; (reflexivity || discriminate).
  - cbn [PlainCsv.join].
    apply lacks_append; [exact Hnl |].
    apply lacks_append; [reflexivity |].
    apply lacks_append;
      [apply str_of_Z_lacks; (reflexivity || discriminate) |].
    apply lacks_append; [reflexivity |].
    apply str_of_Z_lacks; (reflexivity || discriminate).
  - cbn [PlainCsv.join]. destruct (__name__ (operation c));
      [now contradiction Hne | discriminate].
Qed.

Lemma history_frame_rows (h : list Calculation) :
  rows (history_frame h) = map cells_of h.
Proof.
  unfold history_frame, pd_DataFrame. cbn [rows]. now rewrite map_map.
Qed.

Lemma history_frame_columns (h : list Calculation) :
  h <> [] -> columns (history_frame h) = history_columns.
Proof. destruct h; [contradiction | reflexivity]. Qed.

Lemma write_history_frame (h : list Calculation) :
  h <> [] ->
  PlainCsv.write (history_frame h)
  = PlainCsv.unlines
      (PlainCsv.join "," history_columns :: map row_line h).
Proof.
  intros Hne. unfold PlainCsv.write.
  now rewrite (history_frame_columns h Hne), history_frame_rows, map_map.
Qed.

Lemma infer_names (h : list Calculation) :
  h <> [] -> Forall integer_calculation h ->
  PlainCsv.infer (map (fun c => __name__ (operation c)) h) = PlainCsv.KStr.
Proof.
  intros Hne Hall. destruct h as [| c h]; [contradiction |].
  inversion Hall as [| ? ? [Hrec _] _]; subst.
  destruct (name_facts c Hrec) as (_ & _ & _ & Hint & Hfloat & Hbool & _).
  unfold PlainCsv.infer. cbn [map forallb].
  now rewrite Hint, Hfloat, Hbool.
Qed.

Lemma infer_integers (f : Calculation -> Decimal) (h : list Calculation) :
  Forall (fun c => exists a, int64 a /\ f c = D a) h ->
  PlainCsv.infer (map (fun c => PyDecimal.str (f c)) h) = PlainCsv.KInt.
Proof.
  intros Hall. unfold PlainCsv.infer.
  replace (forallb _ (map (fun c => PyDecimal.str (f c)) h)) with true;
    [reflexivity |].
  symmetry. induction Hall as [| c h (a & Ha & Hf) _ IH]; [reflexivity |].
  cbn [map forallb]. rewrite IH, Hf. unfold D.
  now rewrite (parse_int_str a Ha).
Qed.

Lemma convert_row_integers (c : Calculation) :
  integer_calculation c ->
  PlainCsv.convert_row [PlainCsv.KStr; PlainCsv.KInt; PlainCsv.KInt]
    (texts_of c) = cells_read c.
Proof.
  intros (Hrec & a & b & Ha & Hb & H1 & H2).
  destruct (name_facts c Hrec) as (_ & _ & _ & _ & _ & _ & Hna).
  unfold texts_of, cells_of, cells_read.
  cbn [map PlainCsv.cell_text PlainCsv.convert_row PlainCsv.convert].
  rewrite Hna, H1, H2, !Z_of_Decimal_D. unfold D.
  now rewrite (parse_int_str a Ha), (parse_int_str b Hb).
Qed.

Lemma read_written_integers (h : list Calculation) :
  h <> [] -> Forall integer_calculation h ->
  PlainCsv.read (PlainCsv.write (history_frame h))
  = Ok (mk_DataFrame history_columns (map cells_read h)).
Proof.
  intros Hne Hall. rewrite (write_history_frame h Hne). unfold PlainCsv.read.
  rewrite lines_unlines.
  2:{ constructor; [split; [reflexivity | discriminate] |].
      apply Forall_map. apply (Forall_impl _ (fun c H => proj2 (row_line_facts c H))).
      exact Hall. }
  change (PlainCsv.split_on "," (PlainCsv.join "," history_columns))
    with history_columns.
  change (List.length history_columns) with 3%nat.
  assert (Htable : map (PlainCsv.split_on ",") (map row_line h)
                   = map texts_of h).
  { rewrite map_map. apply map_ext_in. intros c Hc.
    rewrite Forall_forall in Hall.
    exact (proj1 (row_line_facts c (Hall c Hc))). }
  rewrite Htable.
  replace (existsb _ (map texts_of h)) with false.
  2:{ symmetry. clear. induction h as [| c h IH]; [reflexivity |].
      cbn [map existsb]. now rewrite IH. }
  replace (map (PlainCsv.pad 3) (map texts_of h)) with (map texts_of h).
  2:{ rewrite map_map. now apply map_ext. }
  cbn [seq map]. rewrite !map_map.
  change (fun x : Calculation => nth 0 (texts_of x) ""%string)
    with (fun c : Calculation => __name__ (operation c)).
  change (fun x : Calculation => nth 1 (texts_of x) ""%string)
    with (fun c : Calculation => PyDecimal.str (num1 c)).
  change (fun x : Calculation => nth 2 (texts_of x) ""%string)
    with (fun c : Calculation => PyDecimal.str (num2 c)).
  rewrite (infer_names h Hne Hall).
  assert (H1 : Forall (fun c => exists a, int64 a /\ num1 c = D a) h).
  { apply (Forall_impl _ (P := integer_calculation)); [| exact Hall].
    intros c (_ & a & b & Ha & Hb & Hn1 & Hn2). now exists a. }
  assert (H2 : Forall (fun c => exists a, int64 a /\ num2 c = D a) h).
  { apply (Forall_impl _ (P := integer_calculation)); [| exact Hall].
    intros c (_ & a & b & Ha & Hb & Hn1 & Hn2). now exists b. }
  rewrite (infer_integers num1 h H1), (infer_integers num2 h H2).
  f_equal. f_equal. apply map_ext_in. intros c Hc.
  rewrite Forall_forall in Hall. now apply convert_row_integers, Hall.
Qed.

Lemma plain_csv_gives_integers_back (h : list Calculation) :
  h <> [] -> Forall integer_calculation h -> reads_back plain_csv h.
Proof.
  intros Hne Hall. exists (mk_DataFrame history_columns (map cells_read h)).
  split; [exact (read_written_integers h Hne Hall) |].
  cbn [columns rows]. clear Hne.
  induction Hall as [| c h (Hrec & a & b & Ha & Hb & H1 & H2) _ IH];
    cbn [map]; constructor; [| exact IH].
  unfold row_gives_back, cells_read.
  rewrite H1, H2, !Z_of_Decimal_D. repeat split; reflexivity.
Qed.

(** Under the reference CSV layer, save(); clear(); load() restores every
    non-empty history of recognized calculations on 64-bit integers. *)
Corollary integer_history_round_trip (w : world) :
  _history w <> [] ->
  Forall integer_calculation (_history w) ->
  eval (save_clear_load (csv := plain_csv)) w = Ok tt /\
  _history (exec (save_clear_load (csv := plain_csv)) w) = _history w.
Proof.
  intros Hne Hall.
  assert (Hrec : Forall recognized (_history w)).
  { apply (Forall_impl _ (P := integer_calculation)); [| exact Hall].
    now intros c [Hc _]. }
  pose proof (plain_csv_gives_integers_back (_history w) Hne Hall) as Hback.
  unfold eval, exec.
  rewrite (@save_clear_load_run plain_csv w Hne Hrec Hback). now split.
Qed.

(* ===================================================================== *)
(** * Properties: the arithmetic of operations.py *)
(* ===================================================================== *)

(** ** The number of digits of a coefficient *)

Lemma fold_digits_lower (l : list ascii) :
  forall acc : N,
    (acc * 10 ^ N.of_nat (List.length l)
     <= fold_left PyDecimal.digit_step l acc)%N.
Proof.
  induction l as [| a l IH]; intros acc.
  - cbn. lia.
  - cbn [fold_left List.length]. rewrite Nat2N.inj_succ, N.pow_succ_r'.
    specialize (IH (PyDecimal.digit_step acc a)).
    unfold PyDecimal.digit_step in *. nia.
Qed.

Lemma chars_length (s : string) :
  List.length (list_ascii_of_string s) = String.length s.
Proof. induction s as [| a s IH]; cbn; [reflexivity | now rewrite IH]. Qed.

Lemma string_of_uint_length (d : Decimal.uint) :
  String.length (NilEmpty.string_of_uint d) = Decimal.nb_digits d.
Proof. induction d; cbn; [reflexivity | now rewrite IHd ..]. Qed.

(** The first digit of a positive coefficient is not 0. *)
Lemma to_uint_head (n : N) :
  (0 < n)%N ->
  exists (a : ascii) (l : list ascii),
    list_ascii_of_string (PyDecimal.digits_of n) = a :: l
    /\ (1 <= PyDecimal.digit_step 0 a)%N.
Proof.
  intros Hn. unfold PyDecimal.digits_of.
  pose proof (DecimalN.Unsigned.to_of (N.to_uint n)) as Hnorm.
  rewrite DecimalN.Unsigned.of_to in Hnorm.
  assert (Hnz : N.to_uint n <> Decimal.zero).
  { intros Hz. pose proof (DecimalN.Unsigned.of_to n) as Hof.
    rewrite Hz in Hof. cbn in Hof. lia. }
  unfold Decimal.unorm in Hnorm.
  destruct (Decimal.nzhead (N.to_uint n)) eqn:Hhead;
    try (rewrite Hnorm in Hnz; now elim Hnz);
    try (exfalso; revert Hhead; apply DecimalFacts.nzhead_nonzero);
    rewrite Hnorm; cbn [NilEmpty.string_of_uint list_ascii_of_string];
    eexists; eexists; (split; [reflexivity | vm_compute; discriminate]).
Qed.

Lemma ndigits_bound (n : N) (k : Z) :
  (0 < n)%N -> 0 <= k -> (n < 10 ^ Z.to_N k)%N -> PyDecimal.ndigits n <= k.
Proof.
  intros Hn Hk Hlt.
  destruct (to_uint_head n Hn) as (a & l & Hl & Ha).
  pose proof (N_of_digits_of n) as Hval.
  unfold PyDecimal.N_of_digits in Hval. rewrite Hl in Hval.
  cbn [fold_left] in Hval.
  pose proof (fold_digits_lower l (PyDecimal.digit_step 0 a)) as Hlow.
  rewrite Hval in Hlow.
  assert (Hlen : PyDecimal.ndigits n = Z.of_nat (S (List.length l))).
  { unfold PyDecimal.ndigits. rewrite <- string_of_uint_length.
    fold (PyDecimal.digits_of n). rewrite <- chars_length, Hl. reflexivity. }
  rewrite Hlen.
  assert (Hpow : (10 ^ N.of_nat (List.length l) < 10 ^ Z.to_N k)%N) by nia.
  apply N.pow_lt_mono_r_iff in Hpow; lia.
Qed.

Lemma ndigits_positive (n : N) : 1 <= PyDecimal.ndigits n.
Proof.
  unfold PyDecimal.ndigits.
  destruct (digits_of_nonempty n) as (a & l & Hl & _).
  rewrite <- string_of_uint_length. fold (PyDecimal.digits_of n).
  rewrite <- chars_length, Hl. cbn [List.length]. lia.
Qed.

(** A coefficient of at most 28 digits with exponent 0 needs no rounding. *)
Lemma fix_finite_exact (s : bool) (c : N) :
  (c < 10 ^ 28)%N ->
  PyDecimal.fix_finite s c 0 = Ok (PyDecimal.Finite s c 0).
Proof.
  intros Hc. unfold PyDecimal.fix_finite.
  destruct (c =? 0)%N eqn:H0.
  - apply N.eqb_eq in H0. subst c. reflexivity.
  - apply N.eqb_neq in H0.
    assert (Hd : PyDecimal.ndigits c <= 28).
    { apply ndigits_bound; [lia | lia | exact Hc]. }
    cbv zeta.
    replace (PyDecimal.ndigits c + 0 - PyDecimal.prec >? PyDecimal.Etop)
      with false
      by (rewrite Z.gtb_ltb; symmetry; apply Z.ltb_ge;
          unfold PyDecimal.Etop, PyDecimal.Emax, PyDecimal.prec; lia).
    replace (0 <? Z.max (PyDecimal.ndigits c + 0 - PyDecimal.prec)
                    PyDecimal.Etiny)
      with false
      by (symmetry; apply Z.ltb_ge;
          unfold PyDecimal.Etiny, PyDecimal.Emin, PyDecimal.prec; lia).
    reflexivity.
Qed.

Lemma signed_abs (z : Z) : PyDecimal.signed (z <? 0) (Z.abs_N z) = z.
Proof.
  unfold PyDecimal.signed. rewrite N2Z.inj_abs_N.
  destruct (z <? 0) eqn:Hz; [apply Z.ltb_lt in Hz | apply Z.ltb_ge in Hz]; lia.
Qed.

Lemma abs_N_bound (z : Z) : Z.abs z < 10 ^ 28 -> (Z.abs_N z < 10 ^ 28)%N.
Proof. intros H. apply N2Z.inj_lt. rewrite N2Z.inj_abs_N. exact H. Qed.

(** ** Integer operands *)

Lemma add_of_Z (a b : Z) :
  Z.abs (a + b) < 10 ^ 28 ->
  PyDecimal.add (D a) (D b) = Ok (D (a + b)).
Proof.
  intros Hsum. unfold D, PyDecimal.of_Z, PyDecimal.add.
  cbn [PyDecimal.check_nans]. change (Z.min 0 0) with 0.
  change (PyDecimal.pow10 (0 - 0)) with 1%N. rewrite !N.mul_1_r.
  rewrite !signed_abs.
  destruct ((Z.abs_N a =? 0)%N && (Z.abs_N b =? 0)%N) eqn:Hzero.
  - apply andb_prop in Hzero. destruct Hzero as [Ha Hb].
    apply N.eqb_eq in Ha, Hb.
    assert (a = 0) by lia. assert (b = 0) by lia. subst a b. reflexivity.
  - apply fix_finite_exact, abs_N_bound, Hsum.
Qed.

Lemma sub_of_Z (a b : Z) :
  Z.abs (a - b) < 10 ^ 28 ->
  PyDecimal.sub (D a) (D b) = Ok (D (a - b)).
Proof.
  intros Hdiff. unfold PyDecimal.sub.
  change (PyDecimal.check_nans (D a) (D b)) with (@None (result Decimal)).
  unfold D, PyDecimal.of_Z, PyDecimal.negate, PyDecimal.add.
  cbn [PyDecimal.check_nans]. change (Z.min 0 0) with 0.
  change (PyDecimal.pow10 (0 - 0)) with 1%N. rewrite !N.mul_1_r.
  rewrite signed_abs.
  assert (Hb : PyDecimal.signed (negb (b <? 0)) (Z.abs_N b) = - b).
  { unfold PyDecimal.signed. rewrite N2Z.inj_abs_N.
    destruct (b <? 0) eqn:Hneg;
      [apply Z.ltb_lt in Hneg | apply Z.ltb_ge in Hneg]; cbn [negb]; lia. }
  rewrite Hb. replace (a + - b) with (a - b) by lia.
  destruct ((Z.abs_N a =? 0)%N && (Z.abs_N b =? 0)%N) eqn:Hzero.
  - apply andb_prop in Hzero. destruct Hzero as [Ha Hz].
    apply N.eqb_eq in Ha, Hz.
    assert (a = 0) by lia. assert (b = 0) by lia. subst a b. reflexivity.
  - apply fix_finite_exact, abs_N_bound, Hdiff.
Qed.

(** X1: on integers whose sum has at most 28 digits [addition] returns the
    sum itself, and on integers whose difference has at most 28 digits
    [subtraction] returns the difference: nothing is rounded and the
    exponent stays 0. *)
Theorem integer_sums_are_exact (a b : Z) :
  (Z.abs (a + b) < 10 ^ 28 ->
   call AO.addition (D a) (D b) = Ok (PDecimal (D (a + b)))) /\
  (Z.abs (a - b) < 10 ^ 28 ->
   call AO.subtraction (D a) (D b) = Ok (PDecimal (D (a - b)))).
Proof.
  split; intros Hbound.
  - cbn [call AO.addition]. unfold AO.addition_body.
    now rewrite (add_of_Z a b Hbound).
  - cbn [call AO.subtraction]. unfold AO.subtraction_body.
    now rewrite (sub_of_Z a b Hbound).
Qed.

Lemma integer_sums_are_exact_witness :
  call AO.addition (D 5) (D (-8)) = Ok (PDecimal (D (-3))) /\
  call AO.subtraction (D (10 ^ 27)) (D (- 10 ^ 27))
  = Ok (PDecimal (D (2 * 10 ^ 27))).
Proof.
  split.
  - apply (integer_sums_are_exact 5 (-8)). vm_compute. reflexivity.
  - apply (integer_sums_are_exact (10 ^ 27) (- 10 ^ 27)).
    vm_compute. reflexivity.
Defined.

Lemma sign_of_product (a b : Z) :
  a * b <> 0 -> xorb (a <? 0) (b <? 0) = (a * b <? 0).
Proof.
  intros Hab.
  destruct (a <? 0) eqn:Ha; destruct (b <? 0) eqn:Hb; cbn [xorb]; symmetry;
    try apply Z.ltb_lt in Ha; try apply Z.ltb_ge in Ha;
    try apply Z.ltb_lt in Hb; try apply Z.ltb_ge in Hb;
    (apply Z.ltb_lt || apply Z.ltb_ge); nia.
Qed.

(** X2: on integers whose product has at most 28 digits [multiplication]
    returns the product itself when it is not zero.  A zero product is a
    zero with exponent 0 whose sign is negative exactly when one operand is
    negative: [Decimal(-5) * Decimal(0)] is [Decimal('-0')]. *)
Theorem integer_products_are_exact (a b : Z) :
  Z.abs (a * b) < 10 ^ 28 ->
  call AO.multiplication (D a) (D b)
  = Ok (PDecimal
          (PyDecimal.Finite (xorb (a <? 0) (b <? 0)) (Z.abs_N (a * b)) 0)) /\
  (a * b <> 0 ->
   call AO.multiplication (D a) (D b) = Ok (PDecimal (D (a * b)))).
Proof.
  intros Hbound.
  assert (Hmul :
    call AO.multiplication (D a) (D b)
    = Ok (PDecimal
            (PyDecimal.Finite (xorb (a <? 0) (b <? 0)) (Z.abs_N (a * b)) 0))).
  { cbn [call AO.multiplication]. unfold AO.multiplication_body.
    unfold D, PyDecimal.of_Z, PyDecimal.mul. cbn [PyDecimal.check_nans].
    change (0 + 0) with 0. rewrite <- Zabs2N.inj_mul.
    now rewrite (fix_finite_exact _ _ (abs_N_bound _ Hbound)). }
  split; [exact Hmul |].
  intros Hnz. rewrite Hmul. unfold D, PyDecimal.of_Z.
  now rewrite (sign_of_product a b Hnz).
Qed.

Lemma integer_products_are_exact_witness :
  call AO.multiplication (D (-5)) (D 0)
  = Ok (PDecimal (PyDecimal.Finite true 0 0)) /\
  call AO.multiplication (D (-6)) (D 7) = Ok (PDecimal (D (-42))).
Proof.
  assert (H0 : Z.abs (-5 * 0) < 10 ^ 28) by (vm_compute; reflexivity).
  assert (H1 : Z.abs (-6 * 7) < 10 ^ 28) by (vm_compute; reflexivity).
  split.
  - exact (proj1 (integer_products_are_exact (-5) 0 H0)).
  - apply (proj2 (integer_products_are_exact (-6) 7 H1)). discriminate.
Defined.

Lemma strip_zeros_power (k : nat) :
  forall (q : N) (e : Z),
    PyDecimal.strip_zeros k (q * 10 ^ N.of_nat k)%N e
    = (q, e + Z.of_nat k).
Proof.
  induction k as [| k IH]; intros q e.
  - cbn [PyDecimal.strip_zeros]. f_equal; [cbn; lia | lia].
  - cbn [PyDecimal.strip_zeros].
    rewrite Nat2N.inj_succ, N.pow_succ_r'.
    replace (q * (10 * 10 ^ N.of_nat k))%N
      with ((q * 10 ^ N.of_nat k) * 10)%N by lia.
    rewrite N.Div0.mod_mul, N.eqb_refl, N.div_mul by discriminate.
    rewrite IH. f_equal. lia.
Qed.

(** X3: dividing a multiple gives the factor back.  For an integer [b]
    that is not 0 and an integer [q] that is not 0 whose product has at
    most 28 digits, [division] of [q * b] by [b] returns [q] itself, with
    exponent 0. *)
Theorem division_of_a_multiple_is_exact (q b : Z) :
  b <> 0 -> q <> 0 -> Z.abs (q * b) < 10 ^ 28 ->
  call AO.division (D (q * b)) (D b) = Ok (PDecimal (D q)).
Proof.
  intros Hb Hq Hbound.
  cbn [call AO.division]. unfold AO.division_body.
  assert (Hcb : (Z.abs_N b =? 0)%N = false) by (apply N.eqb_neq; lia).
  assert (Hca : (Z.abs_N (q * b) =? 0)%N = false) by (apply N.eqb_neq; nia).
  unfold D, PyDecimal.of_Z at 1.
  cbn [PyDecimal.eq_zero PyDecimal.is_zero bind_result]. rewrite Hcb.
  unfold PyDecimal.div, PyDecimal.of_Z. cbn [PyDecimal.check_nans].
  rewrite Hcb, Hca. change (0 - 0) with 0.
  set (shift :=
         PyDecimal.ndigits (Z.abs_N b) - PyDecimal.ndigits (Z.abs_N (q * b))
         + PyDecimal.prec + 1).
  assert (Hshift : 0 <= shift).
  { pose proof (ndigits_positive (Z.abs_N b)).
    assert (PyDecimal.ndigits (Z.abs_N (q * b)) <= 28).
    { apply ndigits_bound; [lia | lia | now apply abs_N_bound]. }
    unfold shift, PyDecimal.prec. lia. }
  replace (shift >=? 0) with true by (symmetry; apply Z.geb_le; exact Hshift).
  cbv zeta.
  assert (Hnum :
    (Z.abs_N (q * b) * PyDecimal.pow10 shift)%N
    = ((Z.abs_N q * 10 ^ N.of_nat (Z.to_nat shift)) * Z.abs_N b)%N).
  { unfold PyDecimal.pow10. rewrite Zabs2N.inj_mul, Z_nat_N. lia. }
  rewrite Hnum, N.Div0.mod_mul, N.div_mul by lia.
  cbn [N.eqb negb].
  replace (Z.to_nat (0 - (0 - shift))) with (Z.to_nat shift) by (f_equal; lia).
  rewrite strip_zeros_power.
  replace (0 - shift + Z.of_nat (Z.to_nat shift)) with 0 by lia.
  assert (Hqbound : (Z.abs_N q < 10 ^ 28)%N).
  { apply abs_N_bound. nia. }
  rewrite (fix_finite_exact _ _ Hqbound). cbn [bind_result].
  do 3 f_equal.
  rewrite (sign_of_product (q * b) b) by nia.
  destruct (q <? 0) eqn:Hneg;
    [apply Z.ltb_lt in Hneg; apply Z.ltb_lt
    | apply Z.ltb_ge in Hneg; apply Z.ltb_ge]; nia.
Qed.

Lemma division_of_a_multiple_is_exact_witness :
  call AO.division (D (-84)) (D 12) = Ok (PDecimal (D (-7))).
Proof.
  apply (division_of_a_multiple_is_exact (-7) 12);
    [discriminate | discriminate | vm_compute; reflexivity].
Defined.

(** ** What the operations raise *)

Lemma fix_finite_raises (s : bool) (c : N) (e : Z) (x : exn) :
  PyDecimal.fix_finite s c e = Raise x -> exn_cls x = Overflow.
Proof.
  unfold PyDecimal.fix_finite, PyDecimal.raise.
  destruct (c =? 0)%N; [discriminate |].
  cbv zeta.
  destruct (_ >? PyDecimal.Etop); [now intros [= <-] |].
  destruct (e <? _); [| discriminate].
  destruct (_ >? PyDecimal.prec);
    (destruct (_ >? PyDecimal.Etop); [now intros [= <-] | discriminate]).
Qed.

Lemma check_nans_raises (a b : Decimal) (x : exn) :
  PyDecimal.check_nans a b = Some (Raise x) -> exn_cls x = InvalidOperation.
Proof.
  unfold PyDecimal.check_nans, PyDecimal.raise.
  destruct a as [sa ca ea | sa | sa [] pa];
    destruct b as [sb cb eb | sb | sb [] pb];
    try discriminate; now intros [= <-].
Qed.

Lemma add_raises (a b : Decimal) (x : exn) :
  PyDecimal.add a b = Raise x -> decimal_signal x.
Proof.
  unfold PyDecimal.add, decimal_signal.
  destruct (PyDecimal.check_nans a b) as [r |] eqn:Hnan.
  { intros ->. left. exact (check_nans_raises a b x Hnan). }
  destruct a as [sa ca ea | sa | sa ga pa];
    destruct b as [sb cb eb | sb | sb gb pb];
    unfold PyDecimal.raise;
    try discriminate; try (now intros [= <-]; left).
  - destruct (_ && _); intros H; right; exact (fix_finite_raises _ _ _ _ H).
  - destruct (xorb sa sb); [now intros [= <-]; left | discriminate].
Qed.

Lemma sub_raises (a b : Decimal) (x : exn) :
  PyDecimal.sub a b = Raise x -> decimal_signal x.
Proof.
  unfold PyDecimal.sub.
  destruct (PyDecimal.check_nans a b) as [r |] eqn:Hnan.
  { intros ->. left. exact (check_nans_raises a b x Hnan). }
  apply add_raises.
Qed.

Lemma mul_raises (a b : Decimal) (x : exn) :
  PyDecimal.mul a b = Raise x -> decimal_signal x.
Proof.
  unfold PyDecimal.mul, decimal_signal.
  destruct (PyDecimal.check_nans a b) as [r |] eqn:Hnan.
  { intros ->. left. exact (check_nans_raises a b x Hnan). }
  destruct a as [sa ca ea | sa | sa ga pa];
    destruct b as [sb cb eb | sb | sb gb pb];
    unfold PyDecimal.raise;
    try discriminate; try (now intros [= <-]; left).
  - intros H; right; exact (fix_finite_raises _ _ _ _ H).
  - destruct (ca =? 0)%N; [now intros [= <-]; left | discriminate].
  - destruct (cb =? 0)%N; [now intros [= <-]; left | discriminate].
Qed.

(** Apart from DivisionByZero, which needs a zero divisor. *)
Lemma div_raises (a b : Decimal) (x : exn) :
  PyDecimal.is_zero b = false ->
  PyDecimal.div a b = Raise x -> decimal_signal x.
Proof.
  unfold PyDecimal.div, decimal_signal. intros Hb.
  destruct (PyDecimal.check_nans a b) as [r |] eqn:Hnan.
  { intros ->. left. exact (check_nans_raises a b x Hnan). }
  destruct a as [sa ca ea | sa | sa ga pa];
    destruct b as [sb cb eb | sb | sb gb pb];
    unfold PyDecimal.raise;
    try discriminate; try (now intros [= <-]; left).
  cbn [PyDecimal.is_zero] in Hb. rewrite Hb.
  destruct (ca =? 0)%N.
  { intros H; right; exact (fix_finite_raises _ _ _ _ H). }
  cbv zeta.
  destruct (_ >=? 0); destruct (negb _);
    try destruct (PyDecimal.strip_zeros _ _ _);
    intros H; right; exact (fix_finite_raises _ _ _ _ H).
Qed.

(** What a calculation of one of the four operations can raise, and what
    it returns. *)
Lemma recognized_raises (c : Calculation) (e : exn) :
  recognized c -> compute c = Raise e ->
  decimal_signal e \/ e = cannot_divide_by_zero.
Proof.
  unfold recognized, compute. cbn [In].
  intros [<- | [<- | [<- | [<- | []]]]]; cbn [call AO.addition AO.subtraction
    AO.multiplication AO.division];
    unfold AO.addition_body, AO.subtraction_body, AO.multiplication_body,
      AO.division_body.
  - destruct (PyDecimal.add _ _) eqn:H; [discriminate |].
    intros [= <-]. left. exact (add_raises _ _ _ H).
  - destruct (PyDecimal.sub _ _) eqn:H; [discriminate |].
    intros [= <-]. left. exact (sub_raises _ _ _ H).
  - destruct (PyDecimal.mul _ _) eqn:H; [discriminate |].
    intros [= <-]. left. exact (mul_raises _ _ _ H).
  - destruct (num2 c) as [sb cb eb | sb | sb [] pb] eqn:Hb;
      cbn [PyDecimal.eq_zero PyDecimal.is_zero bind_result PyDecimal.raise].
    + destruct (cb =? 0)%N eqn:Hz; [intros [= <-]; now right |].
      destruct (PyDecimal.div _ _) eqn:H; [discriminate |].
      intros [= <-]. left.
      apply (div_raises (num1 c) (PyDecimal.Finite sb cb eb) _ Hz H).
    + destruct (PyDecimal.div _ _) eqn:H; [discriminate |].
      intros [= <-]. left.
      exact (div_raises (num1 c) (PyDecimal.Infinity sb) _ eq_refl H).
    + intros [= <-]. left. left. reflexivity.
    + destruct (PyDecimal.div _ _) eqn:H; [discriminate |].
      intros [= <-]. left.
      exact (div_raises (num1 c) (PyDecimal.NaN sb false pb) _ eq_refl H).
Qed.

Lemma recognized_returns (c : Calculation) (v : pyval) :
  recognized c -> compute c = Ok v -> exists d : Decimal, v = PDecimal d.
Proof.
  unfold recognized, compute. cbn [In].
  intros [<- | [<- | [<- | [<- | []]]]]; cbn [call AO.addition AO.subtraction
    AO.multiplication AO.division];
    unfold AO.addition_body, AO.subtraction_body, AO.multiplication_body,
      AO.division_body.
  - destruct (PyDecimal.add _ _) as [d |]; [| discriminate].
    intros [= <-]. now exists d.
  - destruct (PyDecimal.sub _ _) as [d |]; [| discriminate].
    intros [= <-]. now exists d.
  - destruct (PyDecimal.mul _ _) as [d |]; [| discriminate].
    intros [= <-]. now exists d.
  - destruct (PyDecimal.eq_zero _) as [[] |]; cbn [bind_result];
      try discriminate.
    destruct (PyDecimal.div _ _) as [d |]; [| discriminate].
    intros [= <-]. now exists d.
Qed.

Lemma decimal_signal_class (e : exn) :
  decimal_signal e ->
  isinstance e Exception = true /\ isinstance e ZeroDivisionError = false /\
  isinstance e ValueError = false.
Proof.
  unfold isinstance. intros [H | H]; rewrite H; repeat split; reflexivity.
Qed.

(** X4: [division] raises its own ZeroDivisionError exactly for a divisor
    that is a zero, of either sign and any exponent, whatever the dividend.
    For any other divisor nothing it raises is a ZeroDivisionError: the
    DivisionByZero signal of [decimal] never comes out of it. *)
Theorem division_by_zero_only (num1 num2 : Decimal) :
  (PyDecimal.is_zero num2 = true ->
   call AO.division num1 num2 = Raise cannot_divide_by_zero) /\
  (PyDecimal.is_zero num2 = false ->
   forall e : exn,
     call AO.division num1 num2 = Raise e ->
     isinstance e ZeroDivisionError = false /\
     call AO.division num1 num2 <> Raise cannot_divide_by_zero).
Proof.
  split.
  - intros Hz. cbn [call AO.division]. unfold AO.division_body.
    destruct num2 as [sb cb eb | sb | sb gb pb]; try discriminate Hz.
    cbn [PyDecimal.eq_zero bind_result]. now rewrite Hz.
  - intros Hz e He.
    assert (Hsig : decimal_signal e).
    { cbn [call AO.division] in He. unfold AO.division_body in He.
      destruct (PyDecimal.eq_zero num2) as [[] | x] eqn:Hq;
        cbn [bind_result] in He.
      - destruct num2 as [sb cb eb | sb | sb [] pb];
          cbn [PyDecimal.eq_zero PyDecimal.raise] in Hq;
          try discriminate Hq; injection Hq as Hq;
          cbn [PyDecimal.is_zero] in Hq, Hz; congruence.
      - destruct (PyDecimal.div num1 num2) eqn:Hd; [discriminate He |].
        injection He as <-. exact (div_raises _ _ _ Hz Hd).
      - injection He as <-.
        destruct num2 as [sb cb eb | sb | sb [] pb];
          cbn [PyDecimal.eq_zero PyDecimal.raise] in Hq;
          try discriminate Hq.
        injection Hq as <-. left. reflexivity. }
    destruct (decimal_signal_class e Hsig) as (_ & Hzd & _).
    split; [exact Hzd |]. rewrite He. intros [= ->]. discriminate Hzd.
Qed.

Lemma division_by_zero_only_witness :
  call AO.division (D 7) (PyDecimal.Finite true 0 5)
  = Raise cannot_divide_by_zero /\
  exists e : exn,
    call AO.division (PyDecimal.Infinity false) (PyDecimal.Infinity true)
    = Raise e /\
    exn_cls e = InvalidOperation /\ isinstance e ZeroDivisionError = false.
Proof.
  split.
  - apply (division_by_zero_only (D 7) (PyDecimal.Finite true 0 5)).
    reflexivity.
  - exists (mk_exn InvalidOperation "(+-)INF/(+-)INF").
    split; [reflexivity |]. split; [reflexivity |].
    apply (proj2 (division_by_zero_only (PyDecimal.Infinity false)
                    (PyDecimal.Infinity true)) eq_refl).
    reflexivity.
Defined.

(** X5: on finite operands [addition] and [multiplication] do not depend
    on the order of the operands: the same value with the same sign and
    exponent, or the same failure. *)
Theorem addition_and_multiplication_commute (a b : Decimal) :
  finite a -> finite b ->
  call AO.addition a b = call AO.addition b a /\
  call AO.multiplication a b = call AO.multiplication b a.
Proof.
  destruct a as [sa ca ea | |]; try contradiction.
  destruct b as [sb cb eb | |]; try contradiction.
  intros _ _.
  cbn [call AO.addition AO.multiplication].
  unfold AO.addition_body, AO.multiplication_body, PyDecimal.add,
    PyDecimal.mul.
  cbn [PyDecimal.check_nans].
  rewrite (Z.min_comm eb ea), (andb_comm (cb =? 0)%N), (andb_comm sb sa),
    (Z.add_comm (PyDecimal.signed sb _)), (xorb_comm sb sa),
    (N.mul_comm cb ca), (Z.add_comm eb ea).
  split; reflexivity.
Qed.

Lemma addition_and_multiplication_commute_witness :
  call AO.addition tenth (D 7) = call AO.addition (D 7) tenth.
Proof.
  apply (addition_and_multiplication_commute tenth (D 7)); exact I.
Defined.

(* ===================================================================== *)
(** * Properties: calc_utils.py *)
(* ===================================================================== *)

Lemma mapping_facade (operation_name : string) :
  dict_get operation_name calc_utils.operation_mapping
  = option_map
      (fun operation a b => Calculator._calculate_and_record a b operation)
      (dict_get operation_name facade_operation).
Proof.
  unfold calc_utils.operation_mapping, facade_operation.
  cbn [dict_get option_map].
  repeat (destruct (String.eqb operation_name _); [reflexivity |]).
  reflexivity.
Qed.

Lemma facade_recognized (operation_name : string) (op : function)
  (a b : Decimal) :
  dict_get operation_name facade_operation = Some op ->
  recognized (mk_Calculation a b op).
Proof.
  unfold facade_operation, recognized. cbn [dict_get operation In].
  repeat (destruct (String.eqb operation_name _);
          [intros [= <-]; tauto |]).
  discriminate.
Qed.

(** How [perform_operation] runs on a name of the table, for each outcome
    of the computation. *)
Lemma perform_operation_known (num1 num2 : Decimal) (operation_name : string)
  (operation : function) (w : world) :
  dict_get operation_name facade_operation = Some operation ->
  let calculation := mk_Calculation num1 num2 operation in
  let reply := answer num1 num2 operation_name (compute calculation) in
  calc_utils.perform_operation num1 num2 operation_name w
  = (Ok (fst reply),
     add_log (snd reply)
       (set_history (_history w ++ [calculation])
          (add_log (attempting_info num1 num2 operation_name) w))).
Proof.
  intros Hop calculation reply.
  pose proof (facade_recognized operation_name operation num1 num2 Hop)
    as Hrec.
  unfold calc_utils.perform_operation. rewrite mapping_facade, Hop.
  cbn [option_map].
  unfold Calculator._calculate_and_record, add_calculation,
    create_calculation.
  unfold reply, answer, bind, try_except, lift, logging.info, modify.
  fold calculation.
  destruct (compute calculation) as [v | e] eqn:Hc.
  - reflexivity.
  - cbv beta iota zeta.
    destruct (recognized_raises calculation e Hrec Hc) as [Hsig | ->].
    + destruct (decimal_signal_class e Hsig) as (H1 & H2 & H3).
      rewrite H2, H3, H1. reflexivity.
    + reflexivity.
Qed.

Lemma perform_operation_unknown (num1 num2 : Decimal) (operation_name : string)
  (w : world) :
  dict_get operation_name facade_operation = None ->
  calc_utils.perform_operation num1 num2 operation_name w
  = (Ok ("Unknown operation: " ++ operation_name)%string,
     add_log (mk_log ERROR ("Unknown operation: " ++ operation_name))
       (add_log (attempting_info num1 num2 operation_name) w)).
Proof.
  intros Hop. unfold calc_utils.perform_operation.
  rewrite mapping_facade, Hop. reflexivity.
Qed.

(** X6: [perform_operation] always returns a message: no operands and no
    operation name make it raise.  A name outside its table is answered
    with [Unknown operation] and nothing is recorded.  For a name of the
    table the calculation is added to the history whatever its outcome, and
    the message is the result, the division-by-zero error when the outcome
    is a ZeroDivisionError, or the unexpected-error text for any other
    failure of the arithmetic; the [except ValueError] clause is never
    taken.  Files and standard output are untouched. *)
Theorem perform_operation_always_answers (num1 num2 : Decimal)
  (operation_name : string) (w : world) :
  exists (message : string) (record : log_record) (w' : world),
    calc_utils.perform_operation num1 num2 operation_name w
    = (Ok message, w') /\
    log w' = log w ++ [attempting_info num1 num2 operation_name; record] /\
    files w' = files w /\ stdout w' = stdout w /\
    match dict_get operation_name facade_operation with
    | None =>
        message = ("Unknown operation: " ++ operation_name)%string /\
        record = mk_log ERROR ("Unknown operation: " ++ operation_name) /\
        _history w' = _history w
    | Some operation =>
        let calculation := mk_Calculation num1 num2 operation in
        (message, record)
        = answer num1 num2 operation_name (compute calculation) /\
        _history w' = _history w ++ [calculation]
    end.
Proof.
  destruct (dict_get operation_name facade_operation) as [operation |] eqn:Hop.
  - pose proof (perform_operation_known num1 num2 operation_name operation w
                  Hop) as Hrun.
    cbv zeta in Hrun.
    set (reply := answer num1 num2 operation_name
                    (compute (mk_Calculation num1 num2 operation))) in *.
    exists (fst reply), (snd reply). eexists.
    split; [exact Hrun |].
    split; [cbn; now rewrite <- app_assoc |].
    split; [reflexivity |]. split; [reflexivity |].
    split; [symmetry; apply surjective_pairing | reflexivity].
  - rewrite (perform_operation_unknown num1 num2 operation_name w Hop).
    do 3 eexists. split; [reflexivity |].
    split; [cbn; now rewrite <- app_assoc |].
    repeat split.
Qed.




(* ===================================================================== *)
(** * Properties: the operation plugins *)
(* ===================================================================== *)

(** ** Words *)

Lemma split_words_blank (sp l : list ascii) :
  forallb PyDecimal.is_space sp = true ->
  split_words (sp ++ l) [] = split_words l [].
Proof.
  induction sp as [| a sp IH]; cbn [forallb app split_words];
    [reflexivity |].
  intros H. apply andb_prop in H. destruct H as [Ha Hsp].
  rewrite Ha. now apply IH.
Qed.














(** ** The loop of [execute_operation] *)





(** ** The operation commands *)





(* ===================================================================== *)
(** * Properties: the history menu *)
(* ===================================================================== *)

Lemma printed_app (l1 l2 : list string) (w : world) :
  printed (l1 ++ l2) w = printed l2 (printed l1 w).
Proof. unfold printed. apply fold_left_app. Qed.

Lemma printed_fields (lines : list string) :
  forall w : world,
    stdout (printed lines w) = stdout w ++ lines /\
    _history (printed lines w) = _history w /\
    files (printed lines w) = files w /\
    environ (printed lines w) = environ w /\
    log (printed lines w) = log w.
Proof.
  induction lines as [| l lines IH]; intros w.
  - cbn. now rewrite app_nil_r.
  - cbn [printed fold_left]. fold (printed lines (add_stdout l w)).
    destruct (IH (add_stdout l w)) as (H1 & H2 & H3 & H4 & H5).
    rewrite H1, H2, H3, H4, H5. cbn. now rewrite <- app_assoc.
Qed.

(** ** Listing the history *)

Lemma display_each_listable (h : list Calculation) :
  forall (idx : Z) (w : world),
    Forall listable h ->
    HistoryCommand.display_each idx h w
    = (Ok tt, printed (listing idx h) w).
Proof.
  induction h as [| c h IH]; intros idx w Hall; [reflexivity |].
  inversion Hall as [| ? ? Hc Hrest]; subst.
  cbn [HistoryCommand.display_each listing printed fold_left].
  unfold bind at 1. unfold try_except, bind, lift, listing_line.
  unfold listable in Hc.
  destruct (compute c) as [v | e].
  - cbn [print modify]. now rewrite IH.
  - rewrite Hc. cbn [print modify]. now rewrite IH.
Qed.

Lemma display_each_stops (h1 : list Calculation) (c : Calculation)
  (h2 : list Calculation) (e : exn) :
  forall (idx : Z) (w : world),
    Forall listable h1 -> compute c = Raise e ->
    isinstance e ZeroDivisionError = false ->
    HistoryCommand.display_each idx (h1 ++ c :: h2) w
    = (Raise e, printed (listing idx h1) w).
Proof.
  induction h1 as [| c1 h1 IH]; intros idx w Hall Hc He.
  - cbn [app HistoryCommand.display_each listing printed fold_left].
    unfold bind at 1. unfold try_except, bind, lift.
    rewrite Hc, He. reflexivity.
  - inversion Hall as [| ? ? Hc1 Hrest]; subst.
    cbn [app HistoryCommand.display_each listing printed fold_left].
    unfold bind at 1. unfold try_except, bind, lift, listing_line.
    unfold listable in Hc1.
    destruct (compute c1) as [v | e1].
    + cbn [print modify]. now rewrite IH.
    + rewrite Hc1. cbn [print modify]. now rewrite IH.
Qed.

Lemma display_all_listable (w : world) :
  Forall listable (_history w) ->
  HistoryCommand._display_all_calculations w
  = (Ok tt, printed (all_calculations (_history w)) w).
Proof.
  intros Hall. unfold HistoryCommand._display_all_calculations, get_history.
  unfold bind at 1. unfold gets.
  destruct (_history w) as [| c h] eqn:Hh; [reflexivity |].
  unfold bind, print, modify.
  rewrite (display_each_listable (c :: h) 1 _ Hall). reflexivity.
Qed.

(** X11: when every calculation of the history computes or fails with a
    ZeroDivisionError, the option [2] of the history menu returns normally
    and prints the heading and one line per calculation, numbered from 1 in
    history order: the result, or that the calculation is undefined for a
    division by zero; for an empty history it prints that there is none.
    Nothing else changes: the history, the files and the log are as
    before. *)
Theorem display_all_lists_the_history (w : world) :
  Forall listable (_history w) ->
  exists w' : world,
    HistoryCommand._display_all_calculations w = (Ok tt, w') /\
    stdout w' = stdout w ++ all_calculations (_history w) /\
    _history w' = _history w /\ files w' = files w /\ log w' = log w.
Proof.
  intros Hall. rewrite (display_all_listable w Hall).
  eexists. split; [reflexivity |].
  destruct (printed_fields (all_calculations (_history w)) w)
    as (H1 & H2 & H3 & _ & H5).
  now rewrite H1, H2, H3, H5.
Qed.

Lemma display_all_lists_the_history_witness :
  stdout (exec HistoryCommand._display_all_calculations
            (after_divide_by_zero initial_world))
  = [ (LF ++ "All Calculations:")%string;
      "1. Calculation(5, 3, addition) results in 8"%string;
      "2. Calculation(20, 4, division) results in 5"%string;
      "3. Calculation(1, 0, division) is undefined"%string ].
Proof.
  assert (Hall : Forall listable (_history (after_divide_by_zero initial_world))).
  { constructor; [vm_compute; exact I |].
    constructor; [vm_compute; exact I |].
    constructor; [vm_compute; reflexivity | constructor]. }
  destruct (display_all_lists_the_history _ Hall)
    as (w' & Hrun & Hout & _).
  unfold exec. rewrite Hrun. cbn [snd]. rewrite Hout. reflexivity.
Defined.

(** X12: the listing stops at the first calculation that fails with
    anything but a ZeroDivisionError, such as an overflow: the lines of the
    calculations before it are printed and the failure is raised.  The
    option [6] shows the listing before it asks for an index, so with such
    a calculation in the history it raises the same failure, reads no line
    and deletes nothing. *)
Theorem listing_stops_at_other_failures {csv : CsvLayer} (w : world)
  (h1 : list Calculation) (c : Calculation) (h2 : list Calculation)
  (e : exn) (stdin : list string) :
  _history w = h1 ++ c :: h2 ->
  Forall listable h1 ->
  compute c = Raise e ->
  isinstance e ZeroDivisionError = false ->
  let w' := printed ((LF ++ "All Calculations:")%string :: listing 1 h1) w in
  HistoryCommand._display_all_calculations w = (Raise e, w') /\
  HistoryCommand._delete_calculation_from_history stdin w
  = (Raise e, stdin, w') /\
  _history w' = _history w.
Proof.
  intros Hh Hall Hc He w'.
  assert (Hshow :
    HistoryCommand._display_all_calculations w = (Raise e, w')).
  { unfold HistoryCommand._display_all_calculations, get_history.
    unfold bind at 1. unfold gets. rewrite Hh.
    destruct (h1 ++ c :: h2) as [| c0 h0] eqn:Happ.
    { destruct h1; discriminate Happ. }
    rewrite <- Happ. unfold bind, print, modify.
    rewrite (display_each_stops h1 c h2 e 1 _ Hall Hc He). reflexivity. }
  split; [exact Hshow |]. split.
  - unfold HistoryCommand._delete_calculation_from_history.
    unfold io_bind at 1. unfold io_lift at 1, get_history, gets.
    cbv beta iota. rewrite Hh.
    destruct (h1 ++ c :: h2) as [| c0 h0] eqn:Happ.
    { destruct h1; discriminate Happ. }
    unfold io_bind at 1. unfold io_lift at 1. rewrite Hshow. reflexivity.
  - unfold w'. now destruct (printed_fields
                              ((LF ++ "All Calculations:")%string
                               :: listing 1 h1) w) as (_ & H2 & _).
Qed.

Lemma listing_stops_at_other_failures_witness :
  exists e : exn,
    exn_cls e = Overflow /\
    eval HistoryCommand._display_all_calculations after_overflow = Raise e /\
    HistoryCommand._delete_calculation_from_history (csv := plain_csv) ["1"]
      after_overflow
    = (Raise e, ["1"], add_stdout (LF ++ "All Calculations:") after_overflow).
Proof.
  exists (mk_exn Overflow "above Emax").
  destruct (@listing_stops_at_other_failures plain_csv after_overflow []
              (mk_Calculation (PyDecimal.Finite false 1 999999) (D 10)
                 AO.multiplication)
              [] (mk_exn Overflow "above Emax") ["1"])
    as (Hshow & Hdelete & _);
    [reflexivity | constructor | vm_compute; reflexivity | reflexivity |].
  split; [reflexivity |].
  split; [unfold eval; now rewrite Hshow | exact Hdelete].
Defined.

(** ** Deleting from the menu *)





(** ** Loading from the menu *)

(** X14: the option [5] of the history menu is [load_history_from_csv]
    itself: its own [except Exception] clause is never taken, because the
    method has caught every such failure already, so the message
    [Error loading history] is never printed and nothing is printed at
    all. *)
Theorem load_from_menu_never_reports {csv : CsvLayer} (w : world) :
  HistoryCommand._load_calculation_history w = load_history_from_csv w /\
  stdout (exec HistoryCommand._load_calculation_history w) = stdout w.
Proof.
  assert (Hsame :
    HistoryCommand._load_calculation_history w = load_history_from_csv w).
  { unfold HistoryCommand._load_calculation_history, try_except.
    rewrite load_run.
    destruct (read_history w) as [h | e]; [reflexivity |].
    unfold load_handler.
    destruct (isinstance e EmptyDataError); [reflexivity |].
    destruct (isinstance e FileNotFoundError); [reflexivity |].
    destruct (isinstance e Exception) eqn:He; [reflexivity |].
    now rewrite He. }
  split; [exact Hsame |].
  unfold exec. rewrite Hsame, load_run.
  destruct (read_history w) as [h | e]; [reflexivity |].
  unfold load_handler.
  destruct (isinstance e EmptyDataError); [reflexivity |].
  destruct (isinstance e FileNotFoundError); [reflexivity |].
  destruct (isinstance e Exception); reflexivity.
Qed.

(** ** The loop of the menu *)

Lemma reads_forward_lift {A} (m : M A) : reads_forward (io_lift m).
Proof.
  intros stdin w. unfold io_lift. destruct (m w). cbn. lia.
Qed.

Lemma reads_forward_input : reads_forward input.
Proof. intros [| l stdin] w; cbn; lia. Qed.

Lemma reads_forward_reraise {A} (e : exn) : reads_forward (@io_reraise A e).
Proof. intros stdin w. cbn. lia. Qed.

Lemma reads_forward_bind {A B} (m : IO A) (k : A -> IO B) :
  reads_forward m -> (forall a, reads_forward (k a)) ->
  reads_forward (io_bind m k).
Proof.
  intros Hm Hk stdin w. unfold io_bind.
  specialize (Hm stdin w).
  destruct (m stdin w) as [[[a | e] stdin'] w']; cbn [fst snd] in *.
  - specialize (Hk a stdin' w'). lia.
  - exact Hm.
Qed.

Lemma reads_forward_try {A} (m : IO A) (handler : exn -> IO A) :
  reads_forward m -> (forall e, reads_forward (handler e)) ->
  reads_forward (io_try_except m handler).
Proof.
  intros Hm Hh stdin w. unfold io_try_except.
  specialize (Hm stdin w).
  destruct (m stdin w) as [[[a | e] stdin'] w']; cbn [fst snd] in *.
  - exact Hm.
  - specialize (Hh e stdin' w'). lia.
Qed.

Lemma reads_forward_delete {csv : CsvLayer} :
  reads_forward HistoryCommand._delete_calculation_from_history.
Proof.
  unfold HistoryCommand._delete_calculation_from_history.
  apply reads_forward_bind; [apply reads_forward_lift |].
  intros [| c h]; [apply reads_forward_lift |].
  apply reads_forward_bind; [apply reads_forward_lift |]. intros _.
  apply reads_forward_try.
  - apply reads_forward_bind; [apply reads_forward_input |]. intros answer.
    apply reads_forward_bind; [apply reads_forward_lift |]. intros n.
    apply reads_forward_bind; [apply reads_forward_lift |]. intros _.
    apply reads_forward_lift.
  - intros e. destruct (isinstance e ValueError); [apply reads_forward_lift |].
    destruct (isinstance e IndexError);
      [apply reads_forward_lift | apply reads_forward_reraise].
Qed.

Lemma reads_forward_choice {csv : CsvLayer} (choice : string) :
  reads_forward (HistoryCommand.process_choice choice).
Proof.
  unfold HistoryCommand.process_choice, HistoryCommand.options.
  cbn [dict_get].
  repeat (destruct (String.eqb choice _);
          [first [apply reads_forward_lift | apply reads_forward_delete] |]).
  apply reads_forward_lift.
Qed.

Lemma io_bind_run {A B} (m : IO A) (k : A -> IO B) (stdin : list string)
  (w : world) :
  io_bind m k stdin w
  = match m stdin w with
    | (Ok a, stdin', w') => k a stdin' w'
    | (Raise e, stdin', w') => (Raise e, stdin', w')
    end.
Proof. reflexivity. Qed.

Lemma print_menu_run (w : world) :
  HistoryCommand.print_menu w = (Ok tt, printed history_menu w).
Proof. reflexivity. Qed.

(** Passes beyond the number of lines to come make no difference: the
    loop started by [execute] never comes to its last pass allowed. *)
Lemma loop_passes_suffice {csv : CsvLayer} (passes1 : nat) :
  forall (passes2 : nat) (stdin : list string) (w : world),
    (List.length stdin < passes1)%nat -> (List.length stdin < passes2)%nat ->
    HistoryCommand.loop passes1 stdin w = HistoryCommand.loop passes2 stdin w.
Proof.
  induction passes1 as [| p1 IH]; intros passes2 stdin w H1 H2; [lia |].
  destruct passes2 as [| p2]; [lia |].
  cbn [HistoryCommand.loop]. rewrite !io_bind_run.
  unfold io_lift. rewrite print_menu_run. cbv beta iota.
  rewrite !io_bind_run.
  destruct stdin as [| choice rest]; [reflexivity |].
  cbn [input]. destruct (String.eqb (str_lower choice) "exit"); [reflexivity |].
  rewrite !io_bind_run.
  pose proof (reads_forward_choice choice rest (printed history_menu w))
    as Hrest.
  destruct (HistoryCommand.process_choice choice rest
              (printed history_menu w))
    as [[[[] | e] rest'] w1]; [| reflexivity].
  cbn [fst snd List.length] in *. apply IH; lia.
Qed.

Lemma no_option_choice {csv : CsvLayer} (choice : string) :
  no_option choice ->
  HistoryCommand.process_choice choice
  = io_lift (print invalid_choice_message).
Proof.
  intros [_ Hnot]. unfold HistoryCommand.process_choice,
    HistoryCommand.options.
  cbn [dict_get].
  repeat (match goal with
          | |- context [String.eqb choice ?k] =>
              destruct (String.eqb choice k) eqn:Hk;
              [apply String.eqb_eq in Hk; exfalso; apply Hnot; rewrite Hk;
               cbn [In]; repeat (first [left; reflexivity | right])
              | clear Hk]
          end).
  reflexivity.
Qed.

Lemma loop_over_other_lines {csv : CsvLayer} (leave : string)
  (rest : list string) (choices : list string) :
  forall (passes : nat) (w : world),
    Forall no_option choices -> is_exit leave = true ->
    (List.length choices < passes)%nat ->
    HistoryCommand.loop passes (choices ++ leave :: rest) w
    = (Ok tt, rest,
       printed
         (flat_map (fun _ => history_menu ++ [invalid_choice_message]) choices
          ++ history_menu) w).
Proof.
  induction choices as [| choice choices IH];
    intros passes w Hall Hleave Hpasses;
    (destruct passes as [| passes]; [cbn in Hpasses; lia |]);
    cbn [HistoryCommand.loop app flat_map];
    rewrite io_bind_run; unfold io_lift at 1; rewrite print_menu_run;
    cbv beta iota; rewrite io_bind_run; cbn [input].
  - unfold is_exit in Hleave. rewrite Hleave. reflexivity.
  - inversion Hall as [| ? ? Hchoice Hrest]; subst.
    pose proof (proj1 Hchoice) as Hexit. unfold is_exit in Hexit.
    rewrite Hexit, (no_option_choice choice Hchoice).
    rewrite io_bind_run. unfold io_lift, print, modify.
    rewrite IH; [| exact Hrest | exact Hleave | cbn in Hpasses; lia].
    rewrite !printed_app. reflexivity.
Qed.

(** X15: at the history menu a line that is neither [exit] nor one of the
    options [1] to [6] is answered with the invalid-choice message and the
    menu is shown again; [exit], in any capitals, leaves the menu.  For any
    number of such lines followed by [exit], [execute] returns normally
    with the lines after [exit] left to read, having printed the menu once
    per line typed and the message once per rejected line, and nothing else
    has changed: not the history, not the files, not the log. *)
Theorem history_menu_rejects_other_lines {csv : CsvLayer}
  (args choices : list string) (leave : string) (rest : list string)
  (w : world) :
  Forall no_option choices -> is_exit leave = true ->
  exists w' : world,
    HistoryCommand.execute args (choices ++ leave :: rest) w
    = (Ok tt, rest, w') /\
    stdout w'
    = stdout w
      ++ flat_map (fun _ => history_menu ++ [invalid_choice_message]) choices
      ++ history_menu /\
    _history w' = _history w /\ files w' = files w /\ log w' = log w.
Proof.
  intros Hall Hleave. unfold HistoryCommand.execute.
  rewrite (loop_over_other_lines leave rest choices _ w Hall Hleave)
    by (rewrite length_app; cbn; lia).
  eexists. split; [reflexivity |].
  match goal with
  | |- context [printed ?lines w] =>
      destruct (printed_fields lines w) as (H1 & H2 & H3 & _ & H5)
  end.
  now rewrite H1, H2, H3, H5.
Qed.

Lemma history_menu_rejects_other_lines_witness :
  exists w' : world,
    HistoryCommand.execute (csv := plain_csv) [] ["7"; "help"; "EXIT"; "add"]
      two_entries
    = (Ok tt, ["add"], w') /\
    _history w' = _history two_entries.
Proof.
  destruct (@history_menu_rejects_other_lines plain_csv [] ["7"; "help"]
              "EXIT" ["add"] two_entries)
    as (w' & Hrun & _ & Hh & _).
  - constructor; [split; [reflexivity | cbn; intuition discriminate] |].
    constructor; [split; [reflexivity | cbn; intuition discriminate] |].
    constructor.
  - reflexivity.
  - exists w'. split; [exact Hrun | exact Hh].
Defined.

(* ===================================================================== *)
(** * Properties: more on the calculation history *)
(* ===================================================================== *)

(** X16: [get_latest_history] returns the calculation added last: right
    after [add_calculation] it returns that calculation, whatever the
    history held before; it returns [None] exactly for an empty history, in
    particular after [clear_history]; and it changes nothing. *)
Theorem latest_is_the_last_added (c : Calculation) (w : world) :
  eval get_latest_history (exec (add_calculation c) w) = Ok (Some c) /\
  (eval get_latest_history w = Ok None <-> _history w = []) /\
  eval get_latest_history (exec clear_history w) = Ok None /\
  exec get_latest_history w = w.
Proof.
  split; [| split; [| split; reflexivity]].
  - unfold eval, exec, get_latest_history, gets, add_calculation, modify.
    cbn [fst snd _history set_history].
    destruct (_history w) as [| x t]; [reflexivity |].
    cbn [app]. now rewrite last_last.
  - unfold eval, get_latest_history, gets. cbn [fst].
    destruct (_history w); split; intros H; try reflexivity;
      discriminate H.
Qed.

(** ** Which files are written *)





(** ** Files that cannot be loaded *)

Lemma getitem_missing (label : string) (cols : list string) :
  forall row : list pyval,
    ~ In label cols ->
    getitem cols row label
    = Raise (mk_exn KeyError ("'" ++ label ++ "'")).
Proof.
  unfold getitem.
  induction cols as [| k cols IH]; intros row Hnot; [reflexivity |].
  destruct row as [| v row]; [reflexivity |].
  cbn [combine dict_get].
  destruct (String.eqb label k) eqn:Hk.
  - apply String.eqb_eq in Hk. subst k. exfalso. apply Hnot. now left.
  - apply IH. intros Hin. apply Hnot. now right.
Qed.

Lemma load_fails (csv : CsvLayer) (w : world) (e : exn) :
  read_history w = Raise e ->
  isinstance e EmptyDataError = false ->
  isinstance e FileNotFoundError = false ->
  isinstance e Exception = true ->
  load_history_from_csv w = (Ok tt, add_log (load_error e) w).
Proof.
  intros Hread H1 H2 H3. rewrite load_run, Hread. unfold load_handler.
  now rewrite H1, H2, H3.
Qed.

(** X18: a file whose header has no column [fld_Operation] cannot be
    loaded.  When such a file holds at least one record,
    [load_history_from_csv] logs the KeyError for that name as an error and
    leaves the history as it was: in particular a file written with the
    header operation, operand1, operand2 is refused. *)
Theorem load_needs_its_own_header {csv : CsvLayer} (w : world) (text : string)
  (df : DataFrame) (row : list pyval) (rest : list (list pyval)) :
  files w (backing_file w) = Some text ->
  read_csv text = Ok df ->
  rows df = row :: rest ->
  ~ In "fld_Operation"%string (columns df) ->
  load_history_from_csv w
  = (Ok tt, add_log (load_error (mk_exn KeyError "'fld_Operation'")) w) /\
  _history (exec load_history_from_csv w) = _history w.
Proof.
  intros Hfile Hread Hrows Hnot.
  assert (Hrun :
    load_history_from_csv w
    = (Ok tt, add_log (load_error (mk_exn KeyError "'fld_Operation'")) w)).
  { apply load_fails; try reflexivity.
    unfold read_history. rewrite Hfile, Hread. cbn [bind_result].
    rewrite Hrows. cbn [comprehension].
    now rewrite (getitem_missing "fld_Operation" (columns df) row Hnot). }
  split; [exact Hrun |]. unfold exec. now rewrite Hrun.
Qed.

Lemma load_needs_its_own_header_witness :
  load_history_from_csv (csv := plain_csv) with_other_header
  = (Ok tt,
     add_log
       (mk_log ERROR
          "An error occurred while loading history: 'fld_Operation'")
       with_other_header).
Proof.
  apply (@load_needs_its_own_header plain_csv with_other_header
           ("operation,operand1,operand2" ++ LF ++ "addition,1,2" ++ LF)
           (mk_DataFrame ["operation"; "operand1"; "operand2"]
              [[PStr "addition"; PInt 1; PInt 2]])
           [PStr "addition"; PInt 1; PInt 2] []);
    [reflexivity | vm_compute; reflexivity | reflexivity |].
  cbn. intuition discriminate.
Defined.

Lemma getitem_raises (cols : list string) (row : list pyval) (label : string)
  (e : exn) :
  getitem cols row label = Raise e -> exn_cls e = KeyError.
Proof.
  unfold getitem. destruct (dict_get label (combine cols row));
    [discriminate | now intros [= <-]].
Qed.

Lemma Decimal_of_raises (v : pyval) (e : exn) :
  Decimal_of v = Raise e ->
  exn_cls e = TypeError \/ exn_cls e = InvalidOperation.
Proof.
  destruct v as [| b | z | f | s | d]; cbn [Decimal_of]; try discriminate.
  - intros [= <-]. now left.
  - unfold PyDecimal.of_string.
    destruct (PyDecimal.take_sign _) as [sg r].
    destruct (PyDecimal.parse_number sg r); [discriminate |].
    destruct (PyDecimal.parse_special sg r); [discriminate |].
    intros [= <-]. now right.
Qed.

Lemma operand_raises (cols : list string) (row : list pyval) (label : string)
  (e : exn) :
  operand cols row label = Raise e ->
  exn_cls e = KeyError \/ exn_cls e = TypeError
  \/ exn_cls e = InvalidOperation.
Proof.
  unfold operand.
  destruct (getitem cols row label) as [a | e0] eqn:Hget; cbn [bind_result].
  - intros H. right. exact (Decimal_of_raises a e H).
  - intros [= <-]. left. exact (getitem_raises _ _ _ _ Hget).
Qed.

(** What the comprehension of [load_history_from_csv] raises. *)
Lemma comprehension_raises (cols : list string) :
  forall (rs : list (list pyval)) (e : exn),
    comprehension cols rs = Raise e ->
    exn_cls e = KeyError \/ exn_cls e = TypeError
    \/ exn_cls e = InvalidOperation.
Proof.
  induction rs as [| row rs IH]; intros e; [discriminate |].
  cbn [comprehension].
  destruct (getitem cols row "fld_Operation") as [op | e0] eqn:Hop;
    cbn [bind_result];
    [| intros [= <-]; left; exact (getitem_raises _ _ _ _ Hop)].
  destruct (key_in op operation_mapping); [| apply IH].
  fold (operand cols row "fld_Operand1").
  destruct (operand cols row "fld_Operand1") as [d1 | e1] eqn:H1.
  - unfold operand in H1.
    destruct (getitem cols row "fld_Operand1") as [a |];
      cbn [bind_result] in H1 |- *; [| discriminate H1].
    rewrite H1. cbn [bind_result].
    destruct (operand cols row "fld_Operand2") as [d2 | e2] eqn:H2.
    + unfold operand in H2.
      destruct (getitem cols row "fld_Operand2") as [b |];
        cbn [bind_result] in H2 |- *; [| discriminate H2].
      rewrite H2. cbn [bind_result].
      destruct (comprehension cols rs) as [tl | e3]; cbn [bind_result];
        [discriminate |].
      intros [= <-]. now apply IH.
    + pose proof (operand_raises _ _ _ _ H2) as Hcls.
      unfold operand in H2.
      destruct (getitem cols row "fld_Operand2") as [b |];
        cbn [bind_result] in H2 |- *.
      * rewrite H2. cbn [bind_result]. now intros [= <-].
      * injection H2 as ->. now intros [= <-].
  - pose proof (operand_raises _ _ _ _ H1) as Hcls.
    unfold operand in H1.
    destruct (getitem cols row "fld_Operand1") as [a |];
      cbn [bind_result] in H1 |- *.
    + rewrite H1. cbn [bind_result]. now intros [= <-].
    + injection H1 as ->. now intros [= <-].
Qed.

(** One recognized row with an operand that cannot be converted makes the
    comprehension fail. *)
Lemma comprehension_fails (cols : list string) (row : list pyval) (e : exn) :
  forall rs : list (list pyval),
    In row rs ->
    recognized_row cols row = true ->
    operand cols row "fld_Operand1" = Raise e
    \/ operand cols row "fld_Operand2" = Raise e ->
    exists e' : exn, comprehension cols rs = Raise e'.
Proof.
  induction rs as [| r rs IH]; intros Hin Hrec Hbad; [contradiction |].
  cbn [comprehension].
  destruct (getitem cols r "fld_Operation") as [op | e0] eqn:Hop;
    cbn [bind_result]; [| eauto].
  destruct Hin as [-> | Hin].
  - unfold recognized_row in Hrec. rewrite Hop in Hrec. rewrite Hrec.
    fold (operand cols row "fld_Operand1").
    destruct (operand cols row "fld_Operand1") as [d1 | e1] eqn:H1.
    + destruct Hbad as [Hbad | Hbad]; [discriminate Hbad |].
      unfold operand in H1.
      destruct (getitem cols row "fld_Operand1") as [a |];
        cbn [bind_result] in H1 |- *; [| discriminate H1].
      rewrite H1. cbn [bind_result].
      unfold operand in Hbad.
      destruct (getitem cols row "fld_Operand2") as [b |];
        cbn [bind_result] in Hbad |- *; [| eauto].
      rewrite Hbad. cbn [bind_result]. eauto.
    + unfold operand in H1.
      destruct (getitem cols row "fld_Operand1") as [a |];
        cbn [bind_result] in H1 |- *; [| eauto].
      rewrite H1. cbn [bind_result]. eauto.
  - destruct (IH Hin Hrec Hbad) as (e' & He').
    destruct (key_in op operation_mapping); [| eauto].
    destruct (getitem cols r "fld_Operand1") as [a |]; cbn [bind_result];
      [| eauto].
    destruct (Decimal_of a); cbn [bind_result]; [| eauto].
    destruct (getitem cols r "fld_Operand2") as [b |]; cbn [bind_result];
      [| eauto].
    destruct (Decimal_of b); cbn [bind_result]; [| eauto].
    rewrite He'. cbn [bind_result]. eauto.
Qed.

(** X19: loading is all or nothing.  When the file is read and one of its
    records has a recognized operation name but an operand that [Decimal]
    cannot convert, or no operand column, [load_history_from_csv] loads
    none of the records, the valid ones before and after it included: it
    logs one error and the history is the one before the call. *)
Theorem load_is_all_or_nothing {csv : CsvLayer} (w : world) (text : string)
  (df : DataFrame) (row : list pyval) (e : exn) :
  files w (backing_file w) = Some text ->
  read_csv text = Ok df ->
  In row (rows df) ->
  recognized_row (columns df) row = true ->
  operand (columns df) row "fld_Operand1" = Raise e
  \/ operand (columns df) row "fld_Operand2" = Raise e ->
  exists e' : exn,
    load_history_from_csv w = (Ok tt, add_log (load_error e') w) /\
    _history (exec load_history_from_csv w) = _history w.
Proof.
  intros Hfile Hread Hin Hrec Hbad.
  destruct (comprehension_fails (columns df) row e (rows df) Hin Hrec Hbad)
    as (e' & He').
  assert (Hrun :
    load_history_from_csv w = (Ok tt, add_log (load_error e') w)).
  { assert (Hcls := comprehension_raises _ _ _ He').
    apply load_fails.
    - unfold read_history. now rewrite Hfile, Hread.
    - unfold isinstance. destruct Hcls as [H | [H | H]]; now rewrite H.
    - unfold isinstance. destruct Hcls as [H | [H | H]]; now rewrite H.
    - unfold isinstance. destruct Hcls as [H | [H | H]]; now rewrite H. }
  exists e'. split; [exact Hrun |]. unfold exec. now rewrite Hrun.
Qed.

Lemma load_is_all_or_nothing_witness :
  _history (exec (load_history_from_csv (csv := plain_csv)) with_bad_operand)
  = _history with_bad_operand.
Proof.
  destruct (@load_is_all_or_nothing plain_csv with_bad_operand
              ("fld_Operation,fld_Operand1,fld_Operand2" ++ LF
               ++ "addition,1,2" ++ LF ++ "division,x,4" ++ LF)
              (mk_DataFrame ["fld_Operation"; "fld_Operand1"; "fld_Operand2"]
                 [ [PStr "addition"; PStr "1"; PInt 2];
                   [PStr "division"; PStr "x"; PInt 4] ])
              [PStr "division"; PStr "x"; PInt 4]
              (mk_exn InvalidOperation "[<class 'decimal.ConversionSyntax'>]"))
    as (e' & _ & Hsame);
    [reflexivity | vm_compute; reflexivity | right; left; reflexivity
    | reflexivity | left; reflexivity |].
  exact Hsame.
Defined.

(** ** Deletions and the file *)



(* ===================================================================== *)
(** * Properties: more on the command registry *)
(* ===================================================================== *)

Lemma names_of_keyed (d : dict Command) :
  keyed_by_name d -> map fst (map entry (dict_values d)) = dict_keys d.
Proof.
  unfold keyed_by_name.
  induction d as [| [k c] d IH]; intros Hd; [reflexivity |].
  cbn. rewrite (Hd k c) by now left.
  f_equal. apply IH. intros k' c' Hin. apply Hd. now right.
Qed.

Lemma registered_names (cs : list Command) :
  forall (d : dict Command) (n : string),
    In n (dict_keys (registered d cs))
    <-> In n (dict_keys d) \/ In n (map name cs).
Proof.
  induction cs as [| c cs IH]; intros d n.
  - cbn. tauto.
  - rewrite registered_cons, IH, dict_keys_set, dict_contains_keys.
    cbn [map In].
    destruct (existsb (String.eqb (name c)) (dict_keys d)) eqn:Hex.
    + apply existsb_exists in Hex. destruct Hex as (k & Hk & Heq).
      apply String.eqb_eq in Heq. subst k.
      split; [tauto |]. intros [H | [<- | H]]; tauto.
    + rewrite in_app_iff. cbn [In]. tauto.
Qed.

(** X21: after any sequence of registrations on a fresh handler
    [get_commands] lists every name that was registered, and lists it once:
    no two pairs of the listing have the same name, however often a name
    was registered. *)
Theorem get_commands_lists_each_name_once (cs : list Command) (w : world) :
  exists self : CommandHandler,
    eval (register_all CommandHandler_init cs) w = Ok self /\
    NoDup (map fst (get_commands self)) /\
    (forall n : string,
        In n (map fst (get_commands self)) <-> In n (map name cs)).
Proof.
  exists (mk_CommandHandler (registered [] cs)).
  split; [apply register_all_run |].
  assert (Hkeyed : keyed_by_name (registered [] cs)).
  { apply registered_keyed. intros k c []. }
  unfold get_commands. cbn [commands].
  change (map (fun cmd => (name cmd, description cmd))
            (dict_values (registered [] cs)))
    with (map entry (dict_values (registered [] cs))).
  rewrite (names_of_keyed _ Hkeyed). split.
  - apply registered_NoDup. constructor.
  - intros n. rewrite registered_names. cbn. tauto.
Qed.

(** X22: a registered command is the one dispatched under its name, and
    registering it disturbs no other name.  After [register_command] of a
    command: dispatching its name runs it, so when it returns normally the
    dispatch returns normally in the state it reached; dispatching any other
    name does what it did before the registration; and the registration
    itself has only logged. *)
Theorem registration_is_seen_by_dispatch (self : CommandHandler)
  (c : Command) (w : world) :
  exists (self' : CommandHandler) (w' : world),
    register_command self c w = (Ok self', w') /\
    dict_get (name c) (commands self') = Some c /\
    (forall (args : list string) (w1 w2 : world),
        execute c args w1 = (Ok tt, w2) ->
        execute_command self' (name c) args w1 = (Ok tt, w2)) /\
    (forall (k : string) (args : list string) (w1 : world),
        k <> name c ->
        execute_command self' k args w1 = execute_command self k args w1) /\
    _history w' = _history w /\ files w' = files w /\ stdout w' = stdout w.
Proof.
  rewrite register_command_run. eexists. eexists.
  split; [reflexivity |]. cbn [commands].
  assert (Hget :
    dict_get (name c) (dict_set (name c) c (commands self)) = Some c).
  { now rewrite dict_get_set, String.eqb_refl. }
  split; [exact Hget |]. split; [| split].
  - intros args w1 w2 Hrun.
    now apply (execute_command_returns _ (name c) c args w1 w2).
  - intros k args w1 Hk. unfold execute_command. cbn [commands].
    rewrite dict_get_set.
    destruct (String.eqb k (name c)) eqn:Heq; [| reflexivity].
    apply String.eqb_eq in Heq. contradiction.
  - destruct (dict_contains (name c) (commands self)); repeat split.
Qed.

(* ===================================================================== *)
(** * Properties: the command line of the application *)
(* ===================================================================== *)


Lemma space_is_not_e (a : ascii) :
  PyDecimal.is_space a = true -> Ascii.eqb (PyDecimal.lower a) "e" = false.
Proof.
  destruct a as [[] [] [] [] [] [] [] []]; intros H;
    first [discriminate H | reflexivity].
Qed.

Lemma blank_is_not_exit (s : string) : blank s -> is_exit s = false.
Proof.
  unfold blank, is_exit, str_lower. destruct s as [| a s]; [reflexivity |].
  cbn [list_ascii_of_string forallb map string_of_list_ascii String.eqb].
  intros H. apply andb_prop in H. destruct H as [Ha _].
  now rewrite (space_is_not_e a Ha).
Qed.

Lemma blank_has_no_word (s : string) : blank s -> str_split s = [].
Proof.
  unfold blank, str_split. intros H.
  rewrite <- (app_nil_r (list_ascii_of_string s)).
  now rewrite (split_words_blank _ _ H).
Qed.

(** X23: a line of white space only is not handled by the command line.
    For a line that is not empty and holds nothing but white space,
    [dispatch] raises the ValueError of the unpacking, in the state it was
    called in: the line is not taken for an empty line, which shows the
    menu, and the failure is no KeyError, which would show the menu too,
    and no KeyboardInterrupt. *)
Theorem blank_command_line_raises (command_handler : CommandHandler)
  (cmd_input : string) (w : world) :
  cmd_input <> ""%string -> blank cmd_input ->
  App.dispatch command_handler cmd_input w = (Raise nothing_to_unpack, w) /\
  isinstance nothing_to_unpack KeyError = false /\
  isinstance nothing_to_unpack KeyboardInterrupt = false.
Proof.
  intros Hne Hblank. split; [| split; reflexivity].
  unfold App.dispatch.
  pose proof (blank_is_not_exit cmd_input Hblank) as Hexit.
  unfold is_exit in Hexit. rewrite Hexit.
  destruct (String.eqb cmd_input "") eqn:Hempty.
  { apply String.eqb_eq in Hempty. contradiction. }
  rewrite (blank_has_no_word cmd_input Hblank). reflexivity.
Qed.

Lemma blank_command_line_raises_witness :
  eval (App.dispatch CommandHandler_init "   ") initial_world
  = Raise nothing_to_unpack.
Proof.
  unfold eval.
  rewrite (proj1 (blank_command_line_raises CommandHandler_init "   "
                    initial_world ltac:(discriminate) eq_refl)).
  reflexivity.
Defined.



(* ===================================================================== *)
(** * Properties: the most recent calculation *)
(* ===================================================================== *)

Lemma last_in {A} (t : list A) :
  forall c : A, In (last t c) (c :: t).
Proof.
  induction t as [| x t IH]; intros c; [now left |].
  destruct t as [| y t]; [right; now left |].
  change (last (x :: y :: t) c) with (last (y :: t) c).
  destruct (IH c) as [H | H]; [now left | right; now right].
Qed.

(** X25: the option [1] of the history menu always answers.  For a history
    of calculations of the four operations it returns normally and prints
    exactly one line, about the calculation added last: its result, that it
    is undefined for a division by zero, or the error of any other failure
    of the arithmetic, an overflow for instance, which the listing of the
    option [2] does not survive; for an empty history the line says that
    there is none.  Nothing else changes. *)
Theorem most_recent_is_always_shown (w : world) :
  Forall recognized (_history w) ->
  HistoryCommand._display_most_recent_calculation w
  = (Ok tt,
     add_stdout
       match _history w with
       | [] => "No calculations in history."%string
       | c :: t => most_recent_line (last t c)
       end w).
Proof.
  intros Hall.
  unfold HistoryCommand._display_most_recent_calculation,
    get_latest_history.
  unfold bind at 1. unfold gets.
  destruct (_history w) as [| c t] eqn:Hh; [reflexivity |].
  assert (Hrec : recognized (last t c)).
  { apply (proj1 (Forall_forall _ _) Hall). apply last_in. }
  unfold HistoryCommand.print_result, most_recent_line, try_except, bind,
    lift.
  destruct (compute (last t c)) as [v | e] eqn:Hc; [reflexivity |].
  destruct (recognized_raises (last t c) e Hrec Hc) as [Hsig | ->];
    [| reflexivity].
  destruct (decimal_signal_class e Hsig) as (H1 & H2 & _).
  now rewrite H2, H1.
Qed.

Lemma most_recent_is_always_shown_witness :
  eval HistoryCommand._display_most_recent_calculation after_overflow = Ok tt /\
  stdout (exec HistoryCommand._display_most_recent_calculation
            (after_divide_by_zero initial_world))
  = ["Calculation(1, 0, division) is undefined."%string].
Proof.
  assert (H1 : Forall recognized (_history after_overflow)).
  { constructor; [right; right; left; reflexivity | constructor]. }
  assert (H2 : Forall recognized (_history (after_divide_by_zero initial_world))).
  { constructor; [left; reflexivity |].
    constructor; [do 3 right; left; reflexivity |].
    constructor; [do 3 right; left; reflexivity | constructor]. }
  unfold eval, exec.
  rewrite (most_recent_is_always_shown after_overflow H1),
    (most_recent_is_always_shown _ H2).
  split; [reflexivity | vm_compute; reflexivity].
Defined.

